(** * goosebit: the device update manager (goosebit/updater/manager.py)

    A shallow embedding of [UpdateManager], [UnknownUpdateManager],
    [DeviceUpdateManager] and [get_update_manager].

    Conventions.
    - [None]-able values are [option].  The text of the log (a log line,
      the log buffer, a payload sent to a subscriber) is [text], a list of
      Unicode code points, because the progress pattern classifies its
      characters; every other Python [str] (identities, versions, addresses,
      interval strings) is a [string].
    - The two class-level dictionaries of [UpdateManager], the cache of the
      [cached] decorator of [get_device], the device table and the telemetry
      gauge form one explicit [State]; every coroutine is a function in the monad [M],
      which threads the state, records the observable effects in order
      (an [Event] list) and returns either a value or a raised exception.
    - A log subscriber is a [Callback] identifier; awaiting it is recorded as
      a [Deliver] event.  Callbacks are assumed to return normally.
    - Coroutines run to completion one after the other: the clock of the
      cache does not advance inside an operation. *)

From Stdlib Require Import String Ascii ZArith List Bool Lia.
From stdpp Require Import base option gmap strings list fin_maps.

Open Scope string_scope.

(** ** Data model *)

(** [HandlingType] (manager.py, lines 26-29). *)
Inductive HandlingType := SKIP | ATTEMPT | FORCED.

(** Modelled from the spec: [UpdateModeEnum] of goosebit.models, with the four
    modes the source compares against. *)
Inductive UpdateModeEnum := PINNED | LATEST | ASSIGNED | ROLLOUT.

(** Modelled from the spec: [UpdateStateEnum] of goosebit.models.  The source
    names UNKNOWN, REGISTERED and ERROR; the spec lists two more and leaves
    the enumeration open, hence [STATE_OTHER]. *)
Inductive UpdateStateEnum :=
  | UNKNOWN | REGISTERED | RUNNING | UPDATING | ERROR | STATE_OTHER (tag : nat).

(** Modelled from the spec: [Hardware] of goosebit.models, a (model, revision)
    pair. *)
Record Hardware := mkHardware { hw_model : string; hw_revision : string }.

(** Modelled from the spec: [Firmware] of goosebit.models; the source reads
    only [version]. *)
Record Firmware := mkFirmware { version : string; compatibility : list Hardware }.

(** Modelled from the spec: [Rollout] of goosebit.models. *)
Record Rollout := mkRollout { firmware : Firmware; paused : bool }.

(** Log text: a Python [str] as its code points. *)
Definition text := list N.

(** A literal of the source as [text]. *)
Definition str (s : string) : text := map N_of_ascii (list_ascii_of_string s).

(** The value of [device.progress].  The field is an integer column, but
    [update_log] assigns the captured digit string to the attribute; the
    persistence layer converts it with [int] when the row is written. *)
Inductive Progress := PInt (n : N) | PStr (digits : text).

(** Modelled from the spec: [Device] of goosebit.models, with every attribute
    the source reads or assigns. *)
Record Device := mkDevice {
  uuid : string;
  hardware : Hardware;
  fw_version : string;
  last_state : UpdateStateEnum;
  update_mode : UpdateModeEnum;
  assigned_firmware : option Firmware;
  force_update : bool;
  last_seen : Z;
  last_ip : option string;
  last_ipv6 : option string;
  progress : Progress;
  last_log : option text;
  log_complete : bool;
  name : option string
}.

#[global] Instance HandlingType_eq_dec : EqDecision HandlingType.
Proof. solve_decision. Defined.
#[global] Instance UpdateModeEnum_eq_dec : EqDecision UpdateModeEnum.
Proof. solve_decision. Defined.
#[global] Instance UpdateStateEnum_eq_dec : EqDecision UpdateStateEnum.
Proof. solve_decision. Defined.
#[global] Instance Hardware_eq_dec : EqDecision Hardware.
Proof. solve_decision. Defined.
#[global] Instance Firmware_eq_dec : EqDecision Firmware.
Proof. solve_decision. Defined.
#[global] Instance Progress_eq_dec : EqDecision Progress.
Proof. solve_decision. Defined.

(** Attribute assignment [device.f = v]. *)
Definition set_hardware (v : Hardware) (d : Device) : Device :=
  mkDevice (uuid d) v (fw_version d) (last_state d) (update_mode d)
    (assigned_firmware d) (force_update d) (last_seen d) (last_ip d)
    (last_ipv6 d) (progress d) (last_log d) (log_complete d) (name d).
Definition set_fw_version (v : string) (d : Device) : Device :=
  mkDevice (uuid d) (hardware d) v (last_state d) (update_mode d)
    (assigned_firmware d) (force_update d) (last_seen d) (last_ip d)
    (last_ipv6 d) (progress d) (last_log d) (log_complete d) (name d).
Definition set_last_state (v : UpdateStateEnum) (d : Device) : Device :=
  mkDevice (uuid d) (hardware d) (fw_version d) v (update_mode d)
    (assigned_firmware d) (force_update d) (last_seen d) (last_ip d)
    (last_ipv6 d) (progress d) (last_log d) (log_complete d) (name d).
Definition set_update_mode (v : UpdateModeEnum) (d : Device) : Device :=
  mkDevice (uuid d) (hardware d) (fw_version d) (last_state d) v
    (assigned_firmware d) (force_update d) (last_seen d) (last_ip d)
    (last_ipv6 d) (progress d) (last_log d) (log_complete d) (name d).
Definition set_assigned_firmware (v : option Firmware) (d : Device) : Device :=
  mkDevice (uuid d) (hardware d) (fw_version d) (last_state d) (update_mode d)
    v (force_update d) (last_seen d) (last_ip d)
    (last_ipv6 d) (progress d) (last_log d) (log_complete d) (name d).
Definition set_force_update (v : bool) (d : Device) : Device :=
  mkDevice (uuid d) (hardware d) (fw_version d) (last_state d) (update_mode d)
    (assigned_firmware d) v (last_seen d) (last_ip d)
    (last_ipv6 d) (progress d) (last_log d) (log_complete d) (name d).
Definition set_last_seen (v : Z) (d : Device) : Device :=
  mkDevice (uuid d) (hardware d) (fw_version d) (last_state d) (update_mode d)
    (assigned_firmware d) (force_update d) v (last_ip d)
    (last_ipv6 d) (progress d) (last_log d) (log_complete d) (name d).
Definition set_last_ip (v : option string) (d : Device) : Device :=
  mkDevice (uuid d) (hardware d) (fw_version d) (last_state d) (update_mode d)
    (assigned_firmware d) (force_update d) (last_seen d) v
    (last_ipv6 d) (progress d) (last_log d) (log_complete d) (name d).
Definition set_last_ipv6 (v : option string) (d : Device) : Device :=
  mkDevice (uuid d) (hardware d) (fw_version d) (last_state d) (update_mode d)
    (assigned_firmware d) (force_update d) (last_seen d) (last_ip d)
    v (progress d) (last_log d) (log_complete d) (name d).
Definition set_progress (v : Progress) (d : Device) : Device :=
  mkDevice (uuid d) (hardware d) (fw_version d) (last_state d) (update_mode d)
    (assigned_firmware d) (force_update d) (last_seen d) (last_ip d)
    (last_ipv6 d) v (last_log d) (log_complete d) (name d).
Definition set_last_log (v : option text) (d : Device) : Device :=
  mkDevice (uuid d) (hardware d) (fw_version d) (last_state d) (update_mode d)
    (assigned_firmware d) (force_update d) (last_seen d) (last_ip d)
    (last_ipv6 d) (progress d) v (log_complete d) (name d).
Definition set_log_complete (v : bool) (d : Device) : Device :=
  mkDevice (uuid d) (hardware d) (fw_version d) (last_state d) (update_mode d)
    (assigned_firmware d) (force_update d) (last_seen d) (last_ip d)
    (last_ipv6 d) (progress d) (last_log d) v (name d).
Definition set_name (v : option string) (d : Device) : Device :=
  mkDevice (uuid d) (hardware d) (fw_version d) (last_state d) (update_mode d)
    (assigned_firmware d) (force_update d) (last_seen d) (last_ip d)
    (last_ipv6 d) (progress d) (last_log d) (log_complete d) v.

(** The column names that occur in an [update_fields] list. *)
Inductive Field :=
  | F_hardware | F_fw_version | F_last_state | F_update_mode
  | F_assigned_firmware | F_force_update | F_last_seen | F_last_ip
  | F_last_ipv6 | F_progress | F_last_log | F_log_complete | F_name.

(** ** Strings *)

(** The digits of the fields of an interval string.  Interval strings are
    strings of code points 0 to 255, among which the decimal digits are
    "0" to "9"; the digits of a log line, which may be any text, are those
    of [Nd_value] below. *)
Definition is_digit (c : ascii) : bool :=
  let n := nat_of_ascii c in (48 <=? n)%nat && (n <=? 57)%nat.

Definition digit_value (c : ascii) : N := N.of_nat (nat_of_ascii c - 48).

(** [int(s)] on a string of decimal digits. *)
Fixpoint int_of_digits_acc (acc : N) (s : string) : N :=
  match s with
  | EmptyString => acc
  | String c s' => int_of_digits_acc (acc * 10 + digit_value c)%N s'
  end.
Definition int_of_digits (s : string) : N := int_of_digits_acc 0 s.

Fixpoint all_digits (s : string) : bool :=
  match s with
  | EmptyString => true
  | String c s' => is_digit c && all_digits s'
  end.

(** [s.startswith(p)] on log text. *)
Fixpoint startswith (p s : text) : bool :=
  match p, s with
  | [], _ => true
  | a :: p', b :: s' => if N.eqb a b then startswith p' s' else false
  | _ :: _, [] => false
  end.

(** *** [datetime.strptime(s, "%H:%M:%S")]

    Each directive takes one or two digits, the two-digit alternative first;
    the literal ":" (or the end of the string) must follow, so a field is the
    whole text between separators.  %H accepts 0..23, %M 0..59; %S accepts
    0..61 but [datetime] rejects 60 and 61.  [None] is [ValueError]. *)
Fixpoint split_on (sep : ascii) (s : string) : list string :=
  match s with
  | EmptyString => [EmptyString]
  | String c s' =>
      if Ascii.eqb c sep then EmptyString :: split_on sep s'
      else match split_on sep s' with
           | hd :: tl => String c hd :: tl
           | [] => [String c EmptyString]
           end
  end.

Definition strptime_field (limit : N) (t : string) : option N :=
  if ((String.length t =? 1)%nat || (String.length t =? 2)%nat)
     && all_digits t && (int_of_digits t <=? limit)%N
  then Some (int_of_digits t) else None.

Definition strptime_HMS (s : string) : option (N * N * N) :=
  match split_on ":" s with
  | [h; m; sec] =>
      match strptime_field 23 h, strptime_field 59 m, strptime_field 59 sec with
      | Some hh, Some mm, Some ss => Some (hh, mm, ss)
      | _, _, _ => None
      end
  | _ => None
  end.

(** Two-digit rendering of a field, as in an "HH:MM:SS" string. *)
Definition digit_char (n : N) : ascii := ascii_of_N (48 + n).
Definition two_digits (n : N) : string :=
  String (digit_char (n / 10)) (String (digit_char (n mod 10)) EmptyString).
Definition format_HMS (h m s : N) : string :=
  two_digits h ++ ":" ++ two_digits m ++ ":" ++ two_digits s.

(** ** Collaborators outside this module

    The settings constants, the queries of the persistence layer and the
    Unicode database of the runtime are not part of manager.py; they are
    taken as parameters. *)
Class Collaborators := {
  (** goosebit.settings *)
  POLL_TIME : string;
  POLL_TIME_UPDATING : string;
  (** [Firmware.latest(device)]; the unknown-device policy passes [None]. *)
  Firmware_latest : option Device -> option Firmware;
  (** The rollout query of [get_rollout], most recent first; it joins on the
      persisted row of the device. *)
  Rollout_first : option Device -> option Rollout;
  (** Column defaults of a row created by [Device.get_or_create]. *)
  Device_template : Device;
  (** The device table after [Device.filter(id__in=ids).delete()]; the
      column [id] belongs to the Device model. *)
  Device_delete_id_in : list string -> gmap string Device -> gmap string Device;
  (** [\d] in a [str] pattern matches the code points of category Nd;
      [Nd_value c] is the digit value of such a code point, as [int] reads
      it, and [None] for every other code point. *)
  Nd_value : N -> option N;
  (** Below 128 the decimal digits are "0" to "9". *)
  Nd_ascii : forall c, (c < 128)%N ->
    Nd_value c = if (48 <=? c)%N && (c <=? 57)%N then Some (c - 48)%N else None
}.

(** *** [re.findall(r"Downloaded (\d+)%", s)]

    [progress_match_at s] is the regular expression tried at the head of [s]:
    the literal "Downloaded ", a greedy non-empty run of digits, and "%".
    The run is followed by a non-digit, so giving digits back cannot make the
    "%" match: the pattern matches exactly when the longest run is non-empty
    and "%" follows it.  The result is the captured group and the length of
    the whole match. *)
Section pattern.
Context `{Collaborators}.

Definition is_Nd (c : N) : bool :=
  match Nd_value c with Some _ => true | None => false end.

(** The longest prefix of digits, and what follows it. *)
Fixpoint span_Nd (s : text) : text * text :=
  match s with
  | c :: s' =>
      if is_Nd c then let '(ds, r) := span_Nd s' in (c :: ds, r)
      else ([], s)
  | [] => ([], [])
  end.

Definition progress_match_at (s : text) : option (text * nat) :=
  if startswith (str "Downloaded ") s then
    let '(ds, r) := span_Nd (drop 11 s) in
    match ds with
    | _ :: _ =>
        if startswith (str "%") r then Some (ds, 11 + length ds + 1) else None
    | [] => None
    end
  else None.

(** [findall] scans from left to right and resumes after the end of a match;
    [skip] counts the characters of the current match still to pass. *)
Fixpoint findall_from (skip : nat) (s : text) : list text :=
  match s with
  | [] => []
  | _ :: s' =>
      match skip with
      | S k => findall_from k s'
      | O =>
          match progress_match_at s with
          | Some (ds, len) => ds :: findall_from (len - 1) s'
          | None => findall_from 0 s'
          end
      end
  end.

Definition findall_progress (s : text) : list text := findall_from 0 s.

(** [int(s)] on a string of decimal digits. *)
Definition int_of_text (ds : text) : N :=
  fold_left (fun acc c => (acc * 10 + default 0 (Nd_value c))%N) ds 0%N.
End pattern.

(** ** State, effects and the monad *)

Definition Callback := nat.

Inductive Exn :=
  | CancelledError | ValueError | AttributeError | AssertionError
  | OtherError (msg : string).

Inductive Result (A : Type) :=
  | Ok (a : A)
  | Raise (e : Exn).
Arguments Ok {A} a.
Arguments Raise {A} e.

Inductive Event :=
  | Deliver (cb : Callback) (payload : option text)
  | CacheSet (key : string) (d : Device) (ttl : Z)
  | FreshCacheSet (key : string) (d : Device) (ttl : Z)
  | FreshCacheDelete (key : string)
  | DbInsertHardware (h : Hardware)
  | DbInsertDevice (d : Device)
  | DbSave (d : Device) (update_fields : list Field)
  | Gauge (n : nat).

Record State := mkState {
  (** [UpdateManager.device_log_subscriptions] *)
  device_log_subscriptions : gmap string (list Callback);
  (** [UpdateManager.device_poll_time] *)
  device_poll_time : gmap string string;
  (** [DeviceUpdateManager.hardware_default] *)
  hardware_default : option Hardware;
  (** the store of the [cached] decorator of [get_device]: value and expiry
      time *)
  cache_main : gmap string (Device * Z);
  (** the clock the cache expires entries against *)
  now : Z;
  (** the device and hardware tables *)
  db_device : gmap string Device;
  db_hardware : list Hardware;
  (** the telemetry gauge [devices_count] *)
  devices_count : option nat
}.

Definition with_subscriptions (v : gmap string (list Callback)) (s : State) : State :=
  mkState v (device_poll_time s) (hardware_default s) (cache_main s) (now s)
    (db_device s) (db_hardware s) (devices_count s).
Definition with_poll_time (v : gmap string string) (s : State) : State :=
  mkState (device_log_subscriptions s) v (hardware_default s) (cache_main s)
    (now s) (db_device s) (db_hardware s) (devices_count s).
Definition with_hardware_default (v : option Hardware) (s : State) : State :=
  mkState (device_log_subscriptions s) (device_poll_time s) v (cache_main s)
    (now s) (db_device s) (db_hardware s) (devices_count s).
Definition with_cache (v : gmap string (Device * Z)) (s : State) : State :=
  mkState (device_log_subscriptions s) (device_poll_time s) (hardware_default s)
    v (now s) (db_device s) (db_hardware s) (devices_count s).
Definition with_db_device (v : gmap string Device) (s : State) : State :=
  mkState (device_log_subscriptions s) (device_poll_time s) (hardware_default s)
    (cache_main s) (now s) v (db_hardware s) (devices_count s).
Definition with_db_hardware (v : list Hardware) (s : State) : State :=
  mkState (device_log_subscriptions s) (device_poll_time s) (hardware_default s)
    (cache_main s) (now s) (db_device s) v (devices_count s).
Definition with_devices_count (v : option nat) (s : State) : State :=
  mkState (device_log_subscriptions s) (device_poll_time s) (hardware_default s)
    (cache_main s) (now s) (db_device s) (db_hardware s) v.

(** A coroutine: from a state to a result, the state it leaves, and the
    effects it performed in order. *)
Definition M (A : Type) : Type := State -> Result A * State * list Event.

Definition ret {A} (a : A) : M A := fun s => (Ok a, s, []).
Definition raise {A} (e : Exn) : M A := fun s => (Raise e, s, []).
Definition bind {A B} (m : M A) (k : A -> M B) : M B := fun s =>
  match m s with
  | (Ok a, s1, t1) => let '(r, s2, t2) := k a s1 in (r, s2, (t1 ++ t2)%list)
  | (Raise e, s1, t1) => (Raise e, s1, t1)
  end.
Definition get_state : M State := fun s => (Ok s, s, []).
Definition modify (f : State -> State) : M unit := fun s => (Ok tt, f s, []).
Definition emit (e : Event) : M unit := fun s => (Ok tt, s, [e]).

Notation "'let*' x ':=' m 'in' k" := (bind m (fun x => k))
  (at level 10, x name, m at level 100, k at level 200, only parsing).
Notation "'do' m 'then' k" := (bind m (fun _ => k))
  (at level 10, m at level 100, k at level 200, only parsing).

(** [for x in l: await f(x)] *)
Fixpoint for_each {A} (l : list A) (f : A -> M unit) : M unit :=
  match l with
  | [] => ret tt
  | x :: l' => do f x then for_each l' f
  end.

Definition result_of {A} (r : Result A * State * list Event) : Result A := r.1.1.
Definition state_of {A} (r : Result A * State * list Event) : State := r.1.2.
Definition events_of {A} (r : Result A * State * list Event) : list Event := r.2.

(** [l.remove(x)]: drops the first occurrence; [None] is [ValueError]. *)
Fixpoint list_remove_first (x : Callback) (l : list Callback) : option (list Callback) :=
  match l with
  | [] => None
  | y :: l' =>
      if decide (x = y) then Some l'
      else match list_remove_first x l' with
           | Some r => Some (y :: r)
           | None => None
           end
  end.

(** [":" in s] *)
Fixpoint contains_char (c : ascii) (s : string) : bool :=
  match s with
  | EmptyString => false
  | String a s' => Ascii.eqb a c || contains_char c s'
  end.

(** ** The persistence layer and the cache, as this module uses them *)

Section persistence.
Context `{Collaborators}.

(** The integer the column [progress] receives for an attribute value: a
    digit string is stored as the number it denotes.  The bounds of that
    conversion (the longest digit string the runtime converts, the range of
    the column) belong to the persistence layer and are not modelled. *)
Definition progress_value (p : Progress) : N :=
  match p with
  | PInt n => n
  | PStr ds => int_of_text ds
  end.

(** The column [f] of [src] written into the row [dst]. *)
Definition copy_field (src : Device) (f : Field) (dst : Device) : Device :=
  match f with
  | F_hardware => set_hardware (hardware src) dst
  | F_fw_version => set_fw_version (fw_version src) dst
  | F_last_state => set_last_state (last_state src) dst
  | F_update_mode => set_update_mode (update_mode src) dst
  | F_assigned_firmware => set_assigned_firmware (assigned_firmware src) dst
  | F_force_update => set_force_update (force_update src) dst
  | F_last_seen => set_last_seen (last_seen src) dst
  | F_last_ip => set_last_ip (last_ip src) dst
  | F_last_ipv6 => set_last_ipv6 (last_ipv6 src) dst
  | F_progress => set_progress (PInt (progress_value (progress src))) dst
  | F_last_log => set_last_log (last_log src) dst
  | F_log_complete => set_log_complete (log_complete src) dst
  | F_name => set_name (name src) dst
  end.

(** [await device.save(update_fields=...)]: an UPDATE of the listed columns of
    the row with this uuid. *)
Definition db_saved (d : Device) (update_fields : list Field) (s : State) : State :=
  match db_device s !! uuid d with
  | Some row =>
      with_db_device
        (<[uuid d := foldr (copy_field d) row update_fields]> (db_device s)) s
  | None => s
  end.

Definition Device_save (d : Device) (update_fields : list Field) : M unit :=
  do modify (db_saved d update_fields) then emit (DbSave d update_fields).
End persistence.

(** [Hardware.get_or_create(model=..., revision=...)\[0\]] *)
Definition Hardware_get_or_create (model revision : string) : M Hardware :=
  let h := mkHardware model revision in
  let* s := get_state in
  if decide (h ∈ db_hardware s) then ret h
  else
    do modify (with_db_hardware (db_hardware s ++ [h])%list) then
    do emit (DbInsertHardware h) then
    ret h.

(** [Device.get_or_create(uuid=..., defaults={"hardware": hardware})\[0\]] *)
Definition Device_get_or_create `{Collaborators} (id : string) (hw : Hardware) : M Device :=
  let* s := get_state in
  match db_device s !! id with
  | Some d => ret d
  | None =>
      let t := Device_template in
      let d := mkDevice id hw (fw_version t) (last_state t) (update_mode t)
                 (assigned_firmware t) (force_update t) (last_seen t)
                 (last_ip t) (last_ipv6 t) (progress t) (last_log t)
                 (log_complete t) (name t) in
      do modify (with_db_device (<[id := d]> (db_device s))) then
      do emit (DbInsertDevice d) then
      ret d
  end.

(** A read of the cache of the decorator: an entry counts until its expiry
    time. *)
Definition cache_lookup (s : State) (key : string) : option Device :=
  match cache_main s !! key with
  | Some (d, expiry) => if (now s <? expiry)%Z then Some d else None
  | None => None
  end.

(** [await cache.set(key, d, ttl=ttl)] on the cache of the decorator *)
Definition cache_stored (key : string) (d : Device) (ttl : Z) (s : State) : State :=
  with_cache (<[key := (d, (now s + ttl)%Z)]> (cache_main s)) s.

Definition cache_set (key : string) (d : Device) (ttl : Z) : M unit :=
  do modify (cache_stored key d ttl) then emit (CacheSet key d ttl).

(** [cache = Cache(namespace="main")] builds a new cache object, with a store
    of its own: nothing ties it to the cache of the decorator, and the
    object is dropped when the function that built it returns.  A [set] or
    a [delete] on it is recorded as an effect; no store that is read later
    changes. *)
Definition fresh_cache_set (key : string) (d : Device) (ttl : Z) : M unit :=
  emit (FreshCacheSet key d ttl).

Definition fresh_cache_delete (key : string) : M unit :=
  emit (FreshCacheDelete key).

(** ** class UpdateManager (lines 32-121) *)
Module UpdateManager.
Section methods.
Context `{Collaborators}.
Variable dev_id : string.

(** lines 39-40 *)
Definition get_device : M (option Device) := ret None.

(** lines 93-99 *)
Definition log_subscribers : M (list Callback) :=
let* s := get_state in
ret (default [] (device_log_subscriptions s !! dev_id)).

Definition set_log_subscribers (value : list Callback) : M unit :=
modify (fun s =>
  with_subscriptions (<[dev_id := value]> (device_log_subscriptions s)) s).

(** lines 101-111 *)
Definition poll_time : M string :=
let* s := get_state in
ret (default POLL_TIME (device_poll_time s !! dev_id)).

Definition set_poll_time (value : string) : M unit :=
if negb (String.eqb value POLL_TIME) then
  modify (fun s => with_poll_time (<[dev_id := value]> (device_poll_time s)) s)
else
  modify (fun s =>
    match device_poll_time s !! dev_id with
    | Some _ => with_poll_time (delete dev_id (device_poll_time s)) s
    | None => s
    end).

(** lines 88-91 *)
Definition poll_seconds : M N :=
let* t := poll_time in
match strptime_HMS t with
| Some (hour, minute, second) => ret (hour * 3600 + minute * 60 + second)%N
| None => raise ValueError
end.

(** lines 113-115 *)
Definition publish_log (log_data : option text) : M unit :=
let* subscribers := log_subscribers in
for_each subscribers (fun cb => emit (Deliver cb log_data)).

(** lines 72-86.  [get_device_impl] is [self.get_device], which the
  subclass may override.  The context manager is split at its [yield]:
  [subscribe_log_enter] is the code before it, [subscribe_log_exit] the
  [finally] block, and [subscribe_log] runs a body between the two. *)
Section subscribe.
Variable get_device_impl : M (option Device).

Definition subscribe_log_enter (callback : Callback) : M unit :=
let* device := get_device_impl in
let* subscribers := log_subscribers in
do set_log_subscribers (subscribers ++ [callback])%list then
match device with
| Some d => emit (Deliver callback (last_log d))
| None => raise AttributeError
end.

Definition subscribe_log_exit (callback : Callback) : M unit :=
let* subscribers := log_subscribers in
match list_remove_first callback subscribers with
| Some rest => set_log_subscribers rest
| None => raise ValueError
end.

(** [async with self.subscribe_log(callback): body].  [Ok None] is a body
  that was cancelled: the generator swallows [CancelledError]. *)
Definition subscribe_log {A} (callback : Callback) (body : M A) : M (option A) :=
fun s =>
  match subscribe_log_enter callback s with
  | (Raise e, s1, t1) => (Raise e, s1, t1)
  | (Ok _, s1, t1) =>
      let '(r, s2, t2) := body s1 in
      let '(x, s3, t3) := subscribe_log_exit callback s2 in
      let t := (t1 ++ t2 ++ t3)%list in
      match x with
      | Raise e => (Raise e, s3, t)
      | Ok _ =>
          match r with
          | Ok a => (Ok (Some a), s3, t)
          | Raise CancelledError => (Ok None, s3, t)
          | Raise e => (Raise e, s3, t)
          end
      end
  end.
End subscribe.
End methods.
End UpdateManager.

(** ** class UnknownUpdateManager (lines 124-137) *)
Module UnknownUpdateManager.
Section methods.
Context `{Collaborators}.
Variable dev_id : string.

(** lines 125-127 *)
Definition init : M unit := UpdateManager.set_poll_time dev_id POLL_TIME_UPDATING.

(** lines 129-130 *)
Definition _get_firmware : M (option Firmware) :=
let* device := UpdateManager.get_device in
ret (Firmware_latest device).

(** lines 132-134 *)
Definition get_update : M (HandlingType * option Firmware) :=
let* firmware := _get_firmware in
ret (FORCED, firmware).

(** lines 136-137 *)
Definition update_log (log_data : option text) : M unit := ret tt.
End methods.
End UnknownUpdateManager.

(** ** class DeviceUpdateManager (lines 140-315) *)
Module DeviceUpdateManager.
Section methods.
Context `{Collaborators}.
Variable dev_id : string.

(** lines 150-156, the body the [cached] decorator wraps *)
Definition get_device_uncached : M Device :=
let* s := get_state in
let* hardware :=
  match hardware_default s with
  | Some h => ret h
  | None =>
      let* h := Hardware_get_or_create "default" "default" in
      do modify (with_hardware_default (Some h)) then
      ret h
  end in
Device_get_or_create dev_id hardware.

(** lines 143-156: the decorator answers from the cache under the key
  [dev_id]; on a miss it runs the body and stores the result for 600. *)
Definition get_device : M Device :=
let* s := get_state in
match cache_lookup s dev_id with
| Some d => ret d
| None =>
    let* d := get_device_uncached in
    do cache_set dev_id d 600 then
    ret d
end.

(** lines 158-161: the value is set in a new cache object, then the listed
    columns are persisted. *)
Definition save_device (device : Device) (update_fields : list Field) : M unit :=
  do fresh_cache_set dev_id device 600 then
  Device_save device update_fields.

(** lines 163-166 *)
Definition update_force_update (v : bool) : M unit :=
let* device := get_device in
save_device (set_force_update v device) [F_force_update].

(** lines 168-171 *)
Definition update_fw_version (v : string) : M unit :=
let* device := get_device in
save_device (set_fw_version v device) [F_fw_version].

(** lines 173-176 *)
Definition update_hardware (v : Hardware) : M unit :=
let* device := get_device in
save_device (set_hardware v device) [F_hardware].

(** lines 178-181 *)
Definition update_device_state (v : UpdateStateEnum) : M unit :=
let* device := get_device in
save_device (set_last_state v device) [F_last_state].

(** lines 183-191 *)
Definition update_last_connection (seen : Z) (ip : string) : M unit :=
let* device := get_device in
let device := set_last_seen seen device in
if contains_char ":" ip then
  save_device (set_last_ipv6 (Some ip) device) [F_last_seen; F_last_ipv6]
else
  save_device (set_last_ip (Some ip) device) [F_last_seen; F_last_ip].

(** lines 193-197 *)
Definition update_update (mode : UpdateModeEnum) (fw : option Firmware) : M unit :=
let* device := get_device in
save_device (set_update_mode mode (set_assigned_firmware fw device))
  [F_assigned_firmware; F_update_mode].

(** lines 199-202 *)
Definition update_name (v : string) : M unit :=
let* device := get_device in
save_device (set_name (Some v) device) [F_name].

(** lines 204-220; [x or "default"] also replaces the empty string *)
Definition or_default (x : option string) : string :=
match x with
| Some (String c r) => String c r
| _ => "default"
end.

Definition update_config_data (hw_model hw_revision : option string) : M unit :=
let* hw := Hardware_get_or_create (or_default hw_model) (or_default hw_revision) in
let* device := get_device in
let '(device, modified) :=
  if decide (hardware device <> hw)
  then (set_hardware hw device, true) else (device, false) in
let '(device, modified) :=
  if decide (last_state device = UNKNOWN)
  then (set_last_state REGISTERED device, true) else (device, modified) in
if modified then save_device device [F_hardware; F_last_state] else ret tt.

(** lines 222-225 *)
Definition update_log_complete (v : bool) : M unit :=
let* device := get_device in
save_device (set_log_complete v device) [F_log_complete].

(** lines 227-238 *)
Definition get_rollout : M (option Rollout) :=
let* device := get_device in
if decide (update_mode device = ROLLOUT) then
  let* s := get_state in
  ret (Rollout_first (db_device s !! uuid device))
else ret None.

(** lines 240-257 *)
Definition _get_firmware : M (option Firmware) :=
let* device := get_device in
if decide (update_mode device = ROLLOUT) then
  let* rollout := get_rollout in
  match rollout with
  | None => ret None
  | Some r => if paused r then ret None else ret (Some (firmware r))
  end
else if decide (update_mode device = ASSIGNED) then
  ret (assigned_firmware device)
else if decide (update_mode device = LATEST) then
  ret (Firmware_latest (Some device))
else if decide (update_mode device = PINNED) then
  ret None
else raise AssertionError.

(** lines 311-315 *)
Definition clear_log : M unit :=
let* device := get_device in
do save_device (set_last_log (Some []) device) [F_last_log] then
UpdateManager.publish_log dev_id None.

(** lines 259-283 *)
Definition get_update : M (HandlingType * option Firmware) :=
let* device := get_device in
let* firmware := _get_firmware in
let* handling_type :=
  match firmware with
  | None =>
      do UpdateManager.set_poll_time dev_id POLL_TIME then ret SKIP
  | Some fw =>
      if String.eqb (version fw) (fw_version device) && negb (force_update device) then
        do UpdateManager.set_poll_time dev_id POLL_TIME then ret SKIP
      else if bool_decide (last_state device = ERROR) && negb (force_update device) then
        do UpdateManager.set_poll_time dev_id POLL_TIME then ret SKIP
      else
        do UpdateManager.set_poll_time dev_id POLL_TIME_UPDATING then
        do (if log_complete device then
              do update_log_complete false then clear_log
            else ret tt) then
        ret FORCED
  end in
ret (handling_type, firmware).

(** lines 285-309 *)
Definition update_log (log_data : option text) : M unit :=
  match log_data with
  | None => ret tt
  | Some line =>
      let* device := get_device in
      let device :=
        match last_log device with
        | None => set_last_log (Some []) device
        | Some _ => device
        end in
      let device :=
        match last (findall_progress line) with
        | Some m => set_progress (PStr m) device
        | None => device
        end in
      let* device :=
        if startswith (str "Installing Update Chunk Artifacts.") line then
          let device := set_last_log (Some []) device in
          do UpdateManager.publish_log dev_id None then
          ret device
        else ret device in
      let* device :=
        if negb (bool_decide (line = str "Skipped Update.")) then
          let appended := (line ++ [10%N])%list in
          let device :=
            set_last_log (Some (default [] (last_log device) ++ appended)%list) device in
          do UpdateManager.publish_log dev_id (Some appended) then
          ret device
        else ret device in
      save_device device [F_progress; F_last_log]
  end.
End methods.
End DeviceUpdateManager.

(** ** The two policies behind one interface, and [get_update_manager] *)

Inductive Manager :=
  | Unknown (dev_id : string)
  | Registered (dev_id : string).

Definition manager_dev_id (m : Manager) : string :=
  match m with Unknown i => i | Registered i => i end.

Section dispatch.
Context `{Collaborators}.

Definition get_device (m : Manager) : M (option Device) :=
  match m with
  | Unknown _ => UpdateManager.get_device
  | Registered i => let* d := DeviceUpdateManager.get_device i in ret (Some d)
  end.

Definition get_update (m : Manager) : M (HandlingType * option Firmware) :=
  match m with
  | Unknown _ => UnknownUpdateManager.get_update
  | Registered i => DeviceUpdateManager.get_update i
  end.

Definition update_log (m : Manager) (log_data : option text) : M unit :=
  match m with
  | Unknown i => UnknownUpdateManager.update_log log_data
  | Registered i => DeviceUpdateManager.update_log i log_data
  end.

Definition poll_time (m : Manager) : M string :=
  UpdateManager.poll_time (manager_dev_id m).

Definition poll_seconds (m : Manager) : M N :=
  UpdateManager.poll_seconds (manager_dev_id m).

Definition subscribe_log {A} (m : Manager) (callback : Callback) (body : M A)
  : M (option A) :=
  UpdateManager.subscribe_log (manager_dev_id m) (get_device m) callback body.

(** lines 318-323 *)
Definition get_update_manager (dev_id : string) : M Manager :=
  if String.eqb dev_id "unknown" then
    do UnknownUpdateManager.init "unknown" then
    ret (Unknown "unknown")
  else
    let* s := get_state in
    let n := size (db_device s) in
    do modify (with_devices_count (Some n)) then
    do emit (Gauge n) then
    ret (Registered dev_id).
End dispatch.

(** ** delete_devices (lines 326-330)

    The rows are removed by the query; then one new cache object is built
    and told to forget each identity in turn. *)
Definition delete_devices `{Collaborators} (ids : list string) : M unit :=
  do modify (fun s =>
       with_db_device (Device_delete_id_in ids (db_device s)) s) then
  for_each ids fresh_cache_delete.

(** ** Concrete values used by the examples below *)

Definition hw_default : Hardware := mkHardware "default" "default".
Definition fw_2_0 : Firmware := mkFirmware "2.0" [hw_default].

Definition example_device : Device :=
  mkDevice "dev1" hw_default "1.0" REGISTERED LATEST None false 0
    None None (PInt 0) None false None.

(** A digit table with "0" to "9" and the Arabic-Indic digits U+0660 to
    U+0669; a delete query that takes [id] to be the key of the table. *)
Definition example_Nd_value (c : N) : option N :=
  if (48 <=? c)%N && (c <=? 57)%N then Some (c - 48)%N
  else if (1632 <=? c)%N && (c <=? 1641)%N then Some (c - 1632)%N
  else None.

Definition example_collaborators : Collaborators.
Proof.
  refine {| POLL_TIME := "00:01:00";
            POLL_TIME_UPDATING := "00:00:05";
            Firmware_latest := fun _ => Some fw_2_0;
            Rollout_first := fun _ => None;
            Device_template := example_device;
            Device_delete_id_in := fun ids m => foldr (fun k acc => delete k acc) m ids;
            Nd_value := example_Nd_value |}.
  intros c Hc. unfold example_Nd_value.
  destruct ((48 <=? c)%N && (c <=? 57)%N); [reflexivity|].
  destruct (N.leb_spec 1632 c); [lia | reflexivity].
Defined.

Definition empty_state : State := mkState ∅ ∅ None ∅ 0 ∅ [] None.

(** A state in which "dev1" is persisted with a log, and two callbacks are
    subscribed to it. *)
Definition example_state : State :=
  mkState {[ "dev1" := [7; 8]%nat ]} ∅ (Some hw_default) ∅ 0
    {[ "dev1" := set_last_log (Some (str "old log")) example_device ]}
    [hw_default] None.

(** A pinned device with [force_update] and [log_complete] set. *)
Definition pinned_device : Device :=
  set_force_update true (set_log_complete true (set_update_mode PINNED example_device)).

Definition pinned_state : State :=
  mkState {[ "dev1" := [7]%nat ]} ∅ (Some hw_default) ∅ 0
    {[ "dev1" := pinned_device ]} [hw_default] None.

(** ** Observations on a state *)

(** The subscriber list of a device, as [log_subscribers] reads it. *)
Definition subscribers_of (s : State) (dev_id : string) : list Callback :=
  default [] (device_log_subscriptions s !! dev_id).

(** The interval string of a device, as [poll_time] reads it. *)
Definition poll_time_of `{Collaborators} (s : State) (dev_id : string) : string :=
  default POLL_TIME (device_poll_time s !! dev_id).

(** The text of the log buffer; the source reads an absent log as empty. *)
Definition log_text (d : Device) : text := default [] (last_log d).

Definition is_deliver (e : Event) : bool :=
  match e with Deliver _ _ => true | _ => false end.

(** The deliveries among the effects of an operation, in order. *)
Definition deliveries (t : list Event) : list Event := List.filter is_deliver t.

(** One delivery of [payload] to every callback of [l], in list order. *)
Definition broadcast (l : list Callback) (payload : option text) : list Event :=
  map (fun cb => Deliver cb payload) l.

(** What a state keeps across a read of the device: the two side tables,
    the clock and the gauge. *)
Definition same_tables (s s' : State) : Prop :=
  device_log_subscriptions s' = device_log_subscriptions s /\
  device_poll_time s' = device_poll_time s /\
  now s' = now s /\ devices_count s' = devices_count s.

(** Time passing between two operations. *)
Definition elapse (dt : Z) (s : State) : State :=
  mkState (device_log_subscriptions s) (device_poll_time s) (hardware_default s)
    (cache_main s) (now s + dt) (db_device s) (db_hardware s) (devices_count s).

(** The check behind the round trip of one "HH:MM:SS" field: its two-digit
    rendering contains no ":" and parses back to the number. *)
Definition two_digits_ok (limit n : N) : bool :=
  match two_digits n with
  | String a (String b EmptyString) =>
      negb (Ascii.eqb a ":") && negb (Ascii.eqb b ":") &&
      match strptime_field limit (two_digits n) with
      | Some v => N.eqb v n
      | None => false
      end
  | _ => false
  end.

Section pattern_observations.
Context `{Collaborators}.

(** The device [update_log] saves after the line [line], from the device
    [d] it read: the assignments of lines 290-303 in order. *)
Definition device_after_line (line : text) (d : Device) : Device :=
  let d1 := match last_log d with
            | None => set_last_log (Some []) d
            | Some _ => d
            end in
  let d2 := match last (findall_progress line) with
            | Some m => set_progress (PStr m) d1
            | None => d1
            end in
  let d3 := if startswith (str "Installing Update Chunk Artifacts.") line
            then set_last_log (Some []) d2 else d2 in
  if negb (bool_decide (line = str "Skipped Update."))
  then set_last_log (Some (default [] (last_log d3) ++ (line ++ [10%N]))%list) d3
  else d3.

(** Every position of [s] at which the progress pattern matches, with the
    captured digits, from left to right. *)
Fixpoint all_matches (s : text) : list text :=
  match s with
  | [] => []
  | _ :: s' =>
      match progress_match_at s with
      | Some (ds, _) => ds :: all_matches s'
      | None => all_matches s'
      end
  end.
End pattern_observations.

(** None of the first [k] characters of [s] is a capital D (code point 68). *)
Fixpoint no_D (k : nat) (s : text) : Prop :=
  match k, s with
  | S k', c :: s' => c <> 68%N /\ no_D k' s'
  | _, _ => True
  end.

(** The device a read returned, if it returned one. *)
Definition result_of_device (r : Result Device * State * list Event) : option Device :=
  match result_of r with
  | Ok d => Some d
  | Raise _ => None
  end.

(** The row [Device.get_or_create] makes for a new identity. *)
Definition created_device `{Collaborators} (id : string) (hw : Hardware) : Device :=
  let t := Device_template in
  mkDevice id hw (fw_version t) (last_state t) (update_mode t)
    (assigned_firmware t) (force_update t) (last_seen t)
    (last_ip t) (last_ipv6 t) (progress t) (last_log t)
    (log_complete t) (name t).

(** The hardware a new device gets: the remembered default, or the
    "default"/"default" class when none is remembered yet. *)
Definition default_hardware (s : State) : Hardware :=
  default (mkHardware "default" "default") (hardware_default s).

(** No entry of [device_poll_time] holds the idle default. *)
Definition poll_table_ok `{Collaborators} (s : State) : Prop :=
  forall j v, device_poll_time s !! j = Some v -> v <> POLL_TIME.

(** What stays as it is for every device but [i]: the subscriber table as
    a whole, the clock, and the cadence and cache entries of the others. *)
Definition others_kept (i : string) (s s' : State) : Prop :=
  device_log_subscriptions s' = device_log_subscriptions s /\
  now s' = now s /\
  forall j, j <> i ->
    device_poll_time s' !! j = device_poll_time s !! j /\
    cache_main s' !! j = cache_main s !! j.

(** [d'] is [d] in every attribute but the three of the log: [progress],
    [last_log] and [log_complete]. *)
Definition same_but_log (d d' : Device) : Prop :=
  uuid d' = uuid d /\ hardware d' = hardware d /\
  fw_version d' = fw_version d /\ last_state d' = last_state d /\
  update_mode d' = update_mode d /\
  assigned_firmware d' = assigned_firmware d /\
  force_update d' = force_update d /\ last_seen d' = last_seen d /\
  last_ip d' = last_ip d /\ last_ipv6 d' = last_ipv6 d /\ name d' = name d.

(** [m] relates every state it is run in to the state it leaves. *)
Definition preserves {A} (R : State -> State -> Prop) (m : M A) : Prop :=
  forall s, R s (state_of (m s)).

(** Every operation of the registered-device policy of [i] preserves [R]. *)
Definition device_operations_keep `{Collaborators}
    (R : State -> State -> Prop) (i : string) : Prop :=
  preserves R (DeviceUpdateManager.get_device i) /\
  (forall d fs, preserves R (DeviceUpdateManager.save_device i d fs)) /\
  (forall v, preserves R (DeviceUpdateManager.update_force_update i v)) /\
  (forall v, preserves R (DeviceUpdateManager.update_fw_version i v)) /\
  (forall v, preserves R (DeviceUpdateManager.update_hardware i v)) /\
  (forall v, preserves R (DeviceUpdateManager.update_device_state i v)) /\
  (forall v, preserves R (DeviceUpdateManager.update_name i v)) /\
  (forall v, preserves R (DeviceUpdateManager.update_log_complete i v)) /\
  (forall seen ip, preserves R (DeviceUpdateManager.update_last_connection i seen ip)) /\
  (forall mode fw, preserves R (DeviceUpdateManager.update_update i mode fw)) /\
  (forall m r, preserves R (DeviceUpdateManager.update_config_data i m r)) /\
  preserves R (DeviceUpdateManager.get_rollout i) /\
  preserves R (DeviceUpdateManager._get_firmware i) /\
  preserves R (DeviceUpdateManager.get_update i) /\
  (forall line, preserves R (DeviceUpdateManager.update_log i line)) /\
  preserves R (DeviceUpdateManager.clear_log i).

(** The candidate of a device by its update mode, with the device table
    the rollout query reads (lines 240-257). *)
Definition candidate_of `{Collaborators} (d : Device) (rows : gmap string Device)
    : option Firmware :=
  match update_mode d with
  | ROLLOUT =>
      match Rollout_first (rows !! uuid d) with
      | Some r => if paused r then None else Some (firmware r)
      | None => None
      end
  | ASSIGNED => assigned_firmware d
  | LATEST => Firmware_latest (Some d)
  | PINNED => None
  end.

(** An operation on one device column: it returns normally without any
    delivery, the row of the device is the old row with the column set, and
    the cache that [get_device] reads is left as it is, so that
    [get_device] still answers with the device [d] as it was read. *)
Definition writes_column `{Collaborators} {V} (dev_id : string) (op : V -> M unit)
    (set : V -> Device -> Device) (s : State) (d : Device) (s0 : State) : Prop :=
  forall v,
    let r := op v s in
    result_of r = Ok tt /\
    deliveries (events_of r) = [] /\
    cache_main (state_of r) = cache_main s0 /\
    DeviceUpdateManager.get_device dev_id (state_of r) = (Ok d, state_of r, []) /\
    forall row, db_device s0 !! uuid d = Some row ->
                db_device (state_of r) !! uuid d = Some (set v row).

(** * Properties *)

(** ** The monad *)

Lemma bind_Ok {A B} (m : M A) (k : A -> M B) s a s1 t1 :
  m s = (Ok a, s1, t1) ->
  bind m k s = (let '(r, s2, t2) := k a s1 in (r, s2, (t1 ++ t2)%list)).
Proof. intros E. unfold bind. now rewrite E. Qed.

Lemma for_each_deliver (l : list Callback) (p : option text) s :
  for_each l (fun cb => emit (Deliver cb p)) s = (Ok tt, s, broadcast l p).
Proof.
  induction l as [|cb l IH]; [reflexivity|].
  cbn [for_each]. unfold bind at 1. cbn. now rewrite IH.
Qed.

Lemma deliveries_broadcast l p : deliveries (broadcast l p) = broadcast l p.
Proof.
  unfold deliveries, broadcast.
  induction l as [|cb l IH]; [reflexivity|].
  cbn. now f_equal.
Qed.

Lemma deliveries_app t1 t2 : deliveries (t1 ++ t2) = (deliveries t1 ++ deliveries t2)%list.
Proof. unfold deliveries. apply List.filter_app. Qed.

(** ** The subscription bus and the cadence table *)

Section base_lemmas.
Context `{Collaborators}.

Lemma publish_log_run i p s :
  UpdateManager.publish_log i p s = (Ok tt, s, broadcast (subscribers_of s i) p).
Proof.
  unfold UpdateManager.publish_log, UpdateManager.log_subscribers, bind, get_state, ret.
  cbn. now rewrite for_each_deliver.
Qed.

Lemma set_poll_time_run i v s :
  exists s',
    UpdateManager.set_poll_time i v s = (Ok tt, s', []) /\
    poll_time_of s' i = v /\
    device_log_subscriptions s' = device_log_subscriptions s /\
    cache_main s' = cache_main s /\ now s' = now s /\
    db_device s' = db_device s /\ db_hardware s' = db_hardware s /\
    hardware_default s' = hardware_default s /\
    devices_count s' = devices_count s.
Proof.
  unfold UpdateManager.set_poll_time, poll_time_of.
  destruct (String.eqb v POLL_TIME) eqn:E; cbn.
  - apply String.eqb_eq in E. subst v. unfold modify.
    destruct (device_poll_time s !! i) eqn:L.
    + eexists; split; [reflexivity|]. cbn. rewrite lookup_delete_eq. tauto.
    + eexists; split; [reflexivity|]. rewrite L. tauto.
  - unfold modify. eexists; split; [reflexivity|]. cbn.
    rewrite lookup_insert_eq. tauto.
Qed.
End base_lemmas.

(** ** The device accessor *)

Section device_lemmas.
Context `{Collaborators}.

Lemma cache_lookup_stored i d s : cache_lookup (cache_stored i d 600 s) i = Some d.
Proof.
  unfold cache_lookup, cache_stored. cbn. rewrite lookup_insert_eq.
  destruct (Z.ltb_spec (now s) (now s + 600)); [reflexivity | lia].
Qed.

Lemma cache_lookup_db_saved d fs s i :
  cache_lookup (db_saved d fs s) i = cache_lookup s i.
Proof. unfold db_saved. now destruct (db_device s !! uuid d). Qed.

Lemma save_device_run i d fs s :
  DeviceUpdateManager.save_device i d fs s =
    (Ok tt, db_saved d fs s, [FreshCacheSet i d 600; DbSave d fs]).
Proof. reflexivity. Qed.

Lemma cache_main_db_saved d fs s : cache_main (db_saved d fs s) = cache_main s.
Proof. unfold db_saved. now destruct (db_device s !! uuid d). Qed.

Lemma now_db_saved d fs s : now (db_saved d fs s) = now s.
Proof. unfold db_saved. now destruct (db_device s !! uuid d). Qed.

Lemma get_device_hit i s d :
  cache_lookup s i = Some d ->
  DeviceUpdateManager.get_device i s = (Ok d, s, []).
Proof.
  intros L. unfold DeviceUpdateManager.get_device, bind, get_state. now rewrite L.
Qed.

Lemma same_tables_refl s : same_tables s s.
Proof. now repeat split. Qed.

Lemma get_device_uncached_run i s :
  exists d s' t,
    DeviceUpdateManager.get_device_uncached i s = (Ok d, s', t) /\
    same_tables s s' /\ cache_main s' = cache_main s /\ deliveries t = [].
Proof.
  unfold DeviceUpdateManager.get_device_uncached, Hardware_get_or_create,
    Device_get_or_create.
  unfold bind, get_state, modify, emit, ret.
  destruct (hardware_default s) as [h|] eqn:Eh; cbn.
  - destruct (db_device s !! i) eqn:Ed; cbn.
    + do 3 eexists. split; [reflexivity|]. now repeat split.
    + do 3 eexists. split; [reflexivity|]. now repeat split.
  - destruct (decide (_ ∈ db_hardware s)); cbn.
    + destruct (db_device s !! i) eqn:Ed; cbn;
        (do 3 eexists; split; [reflexivity|]; now repeat split).
    + destruct (db_device s !! i) eqn:Ed; cbn;
        (do 3 eexists; split; [reflexivity|]; now repeat split).
Qed.

(** [get_device] always returns a device, leaves it in the cache, and
    touches neither side table. *)
Lemma get_device_run i s :
  exists d s' t,
    DeviceUpdateManager.get_device i s = (Ok d, s', t) /\
    cache_lookup s' i = Some d /\ same_tables s s' /\ deliveries t = [].
Proof.
  destruct (cache_lookup s i) as [d|] eqn:L.
  - exists d, s, []. rewrite (get_device_hit _ _ _ L).
    split; [reflexivity|]. split; [assumption|]. split; [apply same_tables_refl | reflexivity].
  - destruct (get_device_uncached_run i s) as (d & s1 & t1 & E & (F1 & F2 & F3 & F4) & Fc & Dt).
    exists d, (cache_stored i d 600 s1), (t1 ++ [CacheSet i d 600])%list.
    unfold DeviceUpdateManager.get_device, bind at 1, get_state. rewrite L.
    unfold bind at 1. rewrite E. cbn.
    split; [reflexivity|]. split; [apply cache_lookup_stored|].
    split; [now repeat split|].
    rewrite deliveries_app, Dt. reflexivity.
Qed.
End device_lemmas.

Section cache_claims.
Context `{Collaborators}.

Lemma copy_field_twice d f row :
  copy_field d f (copy_field d f row) = copy_field d f row.
Proof. destruct f; reflexivity. Qed.

(** Saving the same value of one column a second time changes nothing. *)
Lemma resave_same d f s :
  db_saved d [f] (db_saved d [f] s) = db_saved d [f] s.
Proof.
  destruct s as [subs pt hd c n db hw cnt].
  unfold db_saved; cbn.
  destruct (db !! uuid d) as [row|] eqn:L; cbn.
  - rewrite lookup_insert_eq. unfold with_db_device; cbn.
    rewrite insert_insert_eq, copy_field_twice. reflexivity.
  - now rewrite L.
Qed.

(** C5.  The claim fails on the code.  [save_device] sets the value in a
    cache object it has just built and then persists the listed columns;
    the cache that [get_device] reads is left exactly as it was.  So a
    [get_device] right after the save still answers with the device that
    was cached before, not with the saved one. *)
Theorem save_device_not_read_back i device update_fields s :
  let r := DeviceUpdateManager.save_device i device update_fields s in
  result_of r = Ok tt /\
  events_of r = [FreshCacheSet i device 600; DbSave device update_fields] /\
  cache_main (state_of r) = cache_main s /\
  (forall d, cache_lookup s i = Some d ->
     DeviceUpdateManager.get_device i (state_of r) = (Ok d, state_of r, [])).
Proof.
  cbn zeta. rewrite save_device_run. unfold result_of, events_of, state_of; cbn [fst snd].
  split; [reflexivity|]. split; [reflexivity|].
  split; [apply cache_main_db_saved|].
  intros d L. apply get_device_hit. now rewrite cache_lookup_db_saved.
Qed.
End cache_claims.

(** ** Clearing the log *)

Section clear_log_claims.
Context `{Collaborators}.

Lemma subscribers_of_db_saved d fs s i :
  subscribers_of (db_saved d fs s) i = subscribers_of s i.
Proof. unfold db_saved. now destruct (db_device s !! uuid d). Qed.

Lemma clear_log_run i s d s0 t0 :
  DeviceUpdateManager.get_device i s = (Ok d, s0, t0) ->
  let d' := set_last_log (Some []) d in
  DeviceUpdateManager.clear_log i s =
    (Ok tt, db_saved d' [F_last_log] s0,
     (t0 ++ [FreshCacheSet i d' 600; DbSave d' [F_last_log]]
         ++ broadcast (subscribers_of s0 i) None)%list).
Proof.
  intros E d'. unfold DeviceUpdateManager.clear_log.
  rewrite (bind_Ok _ _ _ _ _ _ E).
  unfold bind. rewrite save_device_run, publish_log_run.
  rewrite subscribers_of_db_saved. reflexivity.
Qed.

(** C8.  [clear_log] returns normally; a second call right after the first
    leaves exactly the state the first one left.  Each of the two calls
    saves a device with an empty buffer, column [last_log] only, so the
    persisted row of the device has an empty buffer; and each call delivers
    [None] exactly once to every subscriber, in list order, and nothing else
    to anyone. *)
Theorem clear_log_idempotent i s :
  let r1 := DeviceUpdateManager.clear_log i s in
  let r2 := DeviceUpdateManager.clear_log i (state_of r1) in
  result_of r1 = Ok tt /\ result_of r2 = Ok tt /\
  state_of r2 = state_of r1 /\
  (exists d, last_log d = Some [] /\
     In (DbSave d [F_last_log]) (events_of r1) /\
     In (DbSave d [F_last_log]) (events_of r2) /\
     forall row, db_device (state_of r1) !! uuid d = Some row ->
                 last_log row = Some []) /\
  deliveries (events_of r1) = broadcast (subscribers_of s i) None /\
  deliveries (events_of r2) = broadcast (subscribers_of s i) None.
Proof.
  destruct (get_device_run i s) as (d & s0 & t0 & E & L0 & (F1 & _) & Dt).
  set (d' := set_last_log (Some []) d).
  set (s1 := db_saved d' [F_last_log] s0).
  assert (L1 : cache_lookup s1 i = Some d).
  { unfold s1. now rewrite cache_lookup_db_saved. }
  assert (Hsub : subscribers_of s0 i = subscribers_of s i).
  { unfold subscribers_of. now rewrite F1. }
  assert (Hsub1 : subscribers_of s1 i = subscribers_of s i).
  { unfold s1. rewrite subscribers_of_db_saved. exact Hsub. }
  cbn zeta. rewrite (clear_log_run _ _ _ _ _ E). fold d' s1.
  unfold state_of, result_of, events_of; cbn [fst snd].
  rewrite (clear_log_run i s1 d s1 [] (get_device_hit _ _ _ L1)). fold d'.
  cbn [fst snd app].
  split; [reflexivity|]. split; [reflexivity|].
  split; [apply resave_same|].
  split.
  - exists d'. split; [reflexivity|].
    split; [apply in_or_app; right; right; left; reflexivity|].
    split; [right; left; reflexivity|].
    intros row. unfold s1, db_saved. cbn.
    destruct (db_device s0 !! uuid d) as [row0|] eqn:Lr; cbn.
    + rewrite lookup_insert_eq. intros [= <-]. reflexivity.
    + rewrite Lr. discriminate.
  - rewrite Hsub, Hsub1. split.
    + rewrite deliveries_app, Dt. cbn. apply deliveries_broadcast.
    + cbn. apply deliveries_broadcast.
Qed.
End clear_log_claims.

(** ** The update decision *)

Section decision_claims.
Context `{Collaborators}.

Lemma cache_lookup_ext s s' i :
  cache_main s' = cache_main s -> now s' = now s ->
  cache_lookup s' i = cache_lookup s i.
Proof. intros Ec En. unfold cache_lookup. now rewrite Ec, En. Qed.

Lemma get_firmware_run i s d :
  cache_lookup s i = Some d ->
  exists cand, DeviceUpdateManager._get_firmware i s = (Ok cand, s, []).
Proof.
  intros L. unfold DeviceUpdateManager._get_firmware.
  rewrite (bind_Ok _ _ _ _ _ _ (get_device_hit _ _ _ L)).
  destruct (decide (update_mode d = ROLLOUT)) as [Em|Em].
  - unfold DeviceUpdateManager.get_rollout.
    unfold bind at 1. rewrite (bind_Ok _ _ _ _ _ _ (get_device_hit _ _ _ L)).
    destruct (decide (update_mode d = ROLLOUT)); [|contradiction].
    cbn. destruct (Rollout_first _) as [r|]; [destruct (paused r)|]; cbn; eauto.
  - destruct (decide (update_mode d = ASSIGNED)); [cbn; eauto|].
    destruct (decide (update_mode d = LATEST)); [cbn; eauto|].
    destruct (decide (update_mode d = PINNED)); [cbn; eauto|].
    destruct (update_mode d); contradiction.
Qed.

Lemma update_log_complete_run i v s d :
  cache_lookup s i = Some d ->
  let d' := set_log_complete v d in
  DeviceUpdateManager.update_log_complete i v s =
    (Ok tt, db_saved d' [F_log_complete] s,
     [FreshCacheSet i d' 600; DbSave d' [F_log_complete]]).
Proof.
  intros L d'. unfold DeviceUpdateManager.update_log_complete.
  rewrite (bind_Ok _ _ _ _ _ _ (get_device_hit _ _ _ L)).
  now rewrite save_device_run.
Qed.

(** The state after the log of a completed update was reset.  Both saves
    start from the device as cached: the second one does not see the
    first. *)
Lemma reset_completed_log_run i s d :
  cache_lookup s i = Some d ->
  let d1 := set_log_complete false d in
  let d2 := set_last_log (Some []) d in
  exists s',
    bind (DeviceUpdateManager.update_log_complete i false)
         (fun _ => DeviceUpdateManager.clear_log i) s =
      (Ok tt, s',
       ([FreshCacheSet i d1 600; DbSave d1 [F_log_complete];
         FreshCacheSet i d2 600; DbSave d2 [F_last_log]]
          ++ broadcast (subscribers_of s i) None)%list) /\
    cache_lookup s' i = Some d /\
    device_poll_time s' = device_poll_time s /\
    device_log_subscriptions s' = device_log_subscriptions s /\
    (forall row, db_device s' !! uuid d = Some row ->
       log_complete row = false /\ last_log row = Some []) /\
    (forall row, db_device s !! uuid d = Some row ->
       exists row', db_device s' !! uuid d = Some row' /\ same_but_log row row').
Proof.
  intros L d1 d2.
  set (s1 := db_saved d1 [F_log_complete] s).
  assert (L1 : cache_lookup s1 i = Some d).
  { unfold s1. now rewrite cache_lookup_db_saved. }
  exists (db_saved d2 [F_last_log] s1).
  split.
  - rewrite (bind_Ok _ _ _ _ _ _ (update_log_complete_run i false s d L)).
    fold d1 s1.
    rewrite (clear_log_run i s1 d s1 [] (get_device_hit _ _ _ L1)).
    fold d2. cbn [app]. unfold s1. rewrite subscribers_of_db_saved.
    reflexivity.
  - split; [now rewrite cache_lookup_db_saved|].
    unfold s1, db_saved. cbn.
    destruct (db_device s !! uuid d) as [row0|] eqn:Lr; cbn.
    + rewrite lookup_insert_eq. cbn. rewrite lookup_insert_eq.
      split; [reflexivity|]. split; [reflexivity|].
      split; [intros row [= <-]; split; reflexivity|].
      intros row [= <-]. eexists. split; [reflexivity|]. now repeat split.
    + rewrite Lr. cbn. rewrite Lr.
      split; [reflexivity|]. split; [reflexivity|]. split; discriminate.
Qed.

Lemma bind_assoc_run {A B C} (m : M A) (k1 : A -> M B) (k2 : B -> M C) s :
  bind (bind m k1) k2 s = bind m (fun a => bind (k1 a) k2) s.
Proof.
  unfold bind. destruct (m s) as [[[a|e] s1] t1]; [|reflexivity].
  destruct (k1 a s1) as [[[b|e] s2] t2]; [|reflexivity].
  destruct (k2 b s2) as [[r s3] t3]. now rewrite app_assoc.
Qed.

(** The decision of [get_update], with everything it leaves behind. *)
Lemma get_update_run i s d s0 t0 cand s1 t1 :
  DeviceUpdateManager.get_device i s = (Ok d, s0, t0) ->
  DeviceUpdateManager._get_firmware i s0 = (Ok cand, s1, t1) ->
  exists h s' t,
    DeviceUpdateManager.get_update i s = (Ok (h, cand), s', t) /\
    (h = SKIP \/ h = FORCED) /\
    (forall row, db_device s0 !! uuid d = Some row ->
       exists row', db_device s' !! uuid d = Some row' /\ same_but_log row row') /\
    (cand = None -> h = SKIP) /\
    (forall fw, cand = Some fw -> force_update d = false ->
       version fw = fw_version d -> h = SKIP) /\
    (forall fw, cand = Some fw -> force_update d = false ->
       last_state d = ERROR -> h = SKIP) /\
    (forall fw, cand = Some fw -> force_update d = false ->
       version fw <> fw_version d -> last_state d <> ERROR -> h = FORCED) /\
    (forall fw, cand = Some fw -> force_update d = true -> h = FORCED) /\
    (h = SKIP -> poll_time_of s' i = POLL_TIME) /\
    (h = FORCED -> poll_time_of s' i = POLL_TIME_UPDATING) /\
    (h = FORCED -> log_complete d = true ->
       In (DbSave (set_log_complete false d) [F_log_complete]) t /\
       In (DbSave (set_last_log (Some []) d) [F_last_log]) t /\
       (forall row, db_device s' !! uuid d = Some row ->
          log_complete row = false /\ last_log row = Some []) /\
       deliveries t = broadcast (subscribers_of s i) None) /\
    (h = SKIP \/ log_complete d = false ->
       deliveries t = [] /\ db_device s' = db_device s0) /\
    cache_lookup s' i = Some d.
Proof.
  intros E E'.
  destruct (get_device_run i s) as (d_ & s0_ & t0_ & E_ & L0 & (F1 & F2 & _) & Dt).
  rewrite E in E_. injection E_ as <- <- <-.
  destruct (get_firmware_run i s0 d L0) as (cand_ & Ef).
  rewrite E' in Ef. injection Ef as <- -> ->.
  unfold DeviceUpdateManager.get_update.
  rewrite (bind_Ok _ _ _ _ _ _ E), (bind_Ok _ _ _ _ _ _ E').
  destruct (set_poll_time_run i POLL_TIME s0)
    as (sk & Esk & Psk & _ & Fk2 & Fk3 & Fk4 & _).
  destruct (set_poll_time_run i POLL_TIME_UPDATING s0)
    as (sf & Esf & Psf & Fs1 & Fs2 & Fs3 & Fs4 & _).
  assert (Lsk : cache_lookup sk i = Some d)
    by (rewrite (cache_lookup_ext s0 sk i Fk2 Fk3); exact L0).
  assert (Lsf : cache_lookup sf i = Some d)
    by (rewrite (cache_lookup_ext s0 sf i Fs2 Fs3); exact L0).
  assert (Dsk : deliveries (t0 ++ []) = []) by (now rewrite app_nil_r).
  assert (SKIP_case :
    forall k : HandlingType -> M (HandlingType * option Firmware),
      k = (fun h => ret (h, cand)) ->
      bind (bind (UpdateManager.set_poll_time i POLL_TIME) (fun _ => ret SKIP)) k s0
      = (Ok (SKIP, cand), sk, [])).
  { intros k ->. rewrite bind_assoc_run, (bind_Ok _ _ _ _ _ _ Esk). reflexivity. }
  assert (FORCED_case :
    forall k : HandlingType -> M (HandlingType * option Firmware),
      k = (fun h => ret (h, cand)) ->
      exists s' t,
        bind (bind (UpdateManager.set_poll_time i POLL_TIME_UPDATING)
                (fun _ =>
                   bind (if log_complete d
                         then bind (DeviceUpdateManager.update_log_complete i false)
                                (fun _ => DeviceUpdateManager.clear_log i)
                         else ret tt)
                     (fun _ => ret FORCED))) k s0
        = (Ok (FORCED, cand), s', t) /\
        poll_time_of s' i = POLL_TIME_UPDATING /\
        (log_complete d = true ->
           In (DbSave (set_log_complete false d) [F_log_complete]) (t0 ++ [] ++ t) /\
           In (DbSave (set_last_log (Some []) d) [F_last_log]) (t0 ++ [] ++ t) /\
           (forall row, db_device s' !! uuid d = Some row ->
              log_complete row = false /\ last_log row = Some []) /\
           deliveries (t0 ++ [] ++ t) = broadcast (subscribers_of s i) None) /\
        (log_complete d = false ->
           deliveries (t0 ++ [] ++ t) = [] /\ db_device s' = db_device s0) /\
        cache_lookup s' i = Some d /\
        (forall row, db_device s0 !! uuid d = Some row ->
           exists row', db_device s' !! uuid d = Some row' /\ same_but_log row row')).
  { intros k ->. rewrite bind_assoc_run, (bind_Ok _ _ _ _ _ _ Esf).
    rewrite bind_assoc_run.
    destruct (log_complete d) eqn:Elc.
    - destruct (reset_completed_log_run i sf d Lsf)
        as (s' & Er & Lr & Pr & Sr & Rr & Kr).
      rewrite (bind_Ok _ _ _ _ _ _ Er). cbn.
      do 2 eexists. split; [reflexivity|].
      split; [unfold poll_time_of in *; now rewrite Pr|].
      split; [|split; [discriminate|split; [exact Lr|]];
               intros row Hrow; apply Kr; now rewrite Fs4]. intros _.
      split; [apply in_or_app; right; right; left; reflexivity|].
      split; [apply in_or_app; right; right; right; right; left; reflexivity|].
      split; [exact Rr|].
      rewrite deliveries_app, Dt, app_nil_r. cbn.
      change (deliveries (broadcast (subscribers_of sf i) None)
              = broadcast (subscribers_of s i) None).
      rewrite deliveries_broadcast. unfold subscribers_of. now rewrite Fs1, F1.
    - cbn. do 2 eexists. split; [reflexivity|].
      split; [exact Psf|]. split; [discriminate|].
      split; [intros _; split; [now rewrite app_nil_r | exact Fs4]|].
      split; [exact Lsf|].
      intros row Hrow. exists row. rewrite Fs4. split; [exact Hrow | now repeat split]. }
  assert (SKIP_done :
    exists h s' t,
      (Ok (SKIP, cand), sk, (t0 ++ [])%list) = (Ok (h, cand), s', t) /\
      h = SKIP /\ poll_time_of s' i = POLL_TIME /\
      cache_lookup s' i = Some d /\ deliveries t = [] /\
      db_device s' = db_device s0 /\
      (forall row, db_device s0 !! uuid d = Some row ->
         exists row', db_device s' !! uuid d = Some row' /\ same_but_log row row')).
  { exists SKIP, sk, (t0 ++ [])%list. repeat split; try assumption.
    intros row Hrow. exists row. rewrite Fk4. split; [exact Hrow | now repeat split]. }
  destruct cand as [fw|].
  2:{ rewrite SKIP_case by reflexivity.
      destruct SKIP_done as (h & s' & t & Eq & -> & P & L & D & B & K).
      exists SKIP, s', t. split; [exact Eq|]. split; [now left|]. split; [exact K|].
      repeat split; intros; subst; try congruence; auto. }
  destruct (force_update d) eqn:Ef; cbn [negb andb].
  - rewrite !andb_false_r.
    destruct (FORCED_case _ eq_refl) as (s' & t & Eq & P & Lt & Lf & Lc & K).
    rewrite Eq. exists FORCED, s', (t0 ++ [] ++ t)%list.
    split; [reflexivity|]. split; [now right|]. split; [exact K|].
    repeat split; intros; subst; try congruence; auto; try (now apply Lt).
    all: match goal with
         | Hd : _ \/ _ |- _ => destruct Hd; [discriminate | now apply Lf]
         end.
  - rewrite !andb_true_r.
    destruct (String.eqb_spec (version fw) (fw_version d)) as [Ev|Ev].
    { rewrite SKIP_case by reflexivity.
      destruct SKIP_done as (h & s' & t & Eq & -> & P & L & D & B & K).
      exists SKIP, s', t. split; [exact Eq|]. split; [now left|]. split; [exact K|].
      repeat split; intros; subst; try congruence; auto. }
    destruct (decide (last_state d = ERROR)) as [Ee|Ee].
    { rewrite bool_decide_eq_true_2 by assumption.
      rewrite SKIP_case by reflexivity.
      destruct SKIP_done as (h & s' & t & Eq & -> & P & L & D & B & K).
      exists SKIP, s', t. split; [exact Eq|]. split; [now left|]. split; [exact K|].
      repeat split; intros; subst; try congruence; auto. }
    rewrite bool_decide_eq_false_2 by assumption.
    destruct (FORCED_case _ eq_refl) as (s' & t & Eq & P & Lt & Lf & Lc & K).
    rewrite Eq. exists FORCED, s', (t0 ++ [] ++ t)%list.
    split; [reflexivity|]. split; [now right|]. split; [exact K|].
    repeat split; intros; subst; try congruence; auto; try (now apply Lt).
    all: match goal with
         | Hd : _ \/ _ |- _ => destruct Hd; [discriminate | now apply Lf]
         end.
Qed.

(** C1.  Let [d] be the device [get_update] reads and [cand] the
    candidate [_get_firmware] resolves.  Then [get_update] returns
    [(h, cand)] where, in this order: no candidate gives SKIP; otherwise a
    candidate whose version equals [fw_version d] gives SKIP unless
    [force_update d]; otherwise [last_state d = ERROR] gives SKIP unless
    [force_update d]; everything else gives FORCED, so a candidate with
    [force_update d] always gives FORCED.  SKIP leaves the idle interval
    [POLL_TIME] as the cadence of the device, FORCED the interval
    [POLL_TIME_UPDATING].  In the FORCED case with [log_complete d], the
    device is saved with [log_complete] false and then with an empty log,
    so that its row has [log_complete] false and an empty log, and every
    subscriber was sent [None] once, all before the function returns; in
    all other cases nothing is delivered and the device table is left as
    it is.  The entry of the cache that [get_device] reads is in every case
    the device as it was read. *)
Theorem get_update_decision i s d s0 t0 cand s1 t1 :
  DeviceUpdateManager.get_device i s = (Ok d, s0, t0) ->
  DeviceUpdateManager._get_firmware i s0 = (Ok cand, s1, t1) ->
  exists h s' t,
    DeviceUpdateManager.get_update i s = (Ok (h, cand), s', t) /\
    (cand = None -> h = SKIP) /\
    (forall fw, cand = Some fw -> force_update d = false ->
       version fw = fw_version d -> h = SKIP) /\
    (forall fw, cand = Some fw -> force_update d = false ->
       last_state d = ERROR -> h = SKIP) /\
    (forall fw, cand = Some fw -> force_update d = false ->
       version fw <> fw_version d -> last_state d <> ERROR -> h = FORCED) /\
    (forall fw, cand = Some fw -> force_update d = true -> h = FORCED) /\
    (h = SKIP -> poll_time_of s' i = POLL_TIME) /\
    (h = FORCED -> poll_time_of s' i = POLL_TIME_UPDATING) /\
    (h = FORCED -> log_complete d = true ->
       In (DbSave (set_log_complete false d) [F_log_complete]) t /\
       In (DbSave (set_last_log (Some []) d) [F_last_log]) t /\
       (forall row, db_device s' !! uuid d = Some row ->
          log_complete row = false /\ last_log row = Some []) /\
       deliveries t = broadcast (subscribers_of s i) None) /\
    (h = SKIP \/ log_complete d = false ->
       deliveries t = [] /\ db_device s' = db_device s0) /\
    cache_lookup s' i = Some d.
Proof.
  intros E E'.
  destruct (get_update_run i s d s0 t0 cand s1 t1 E E')
    as (h & s' & t & Eq & _ & _ & Rest).
  exists h, s', t. split; [exact Eq | exact Rest].
Qed.

(** [get_update] of the registered-device policy always returns. *)
Lemma get_update_returns i s :
  exists h cand s' t,
    DeviceUpdateManager.get_update i s = (Ok (h, cand), s', t) /\
    (h = SKIP \/ h = FORCED).
Proof.
  destruct (get_device_run i s) as (d & s0 & t0 & E & L0 & _).
  destruct (get_firmware_run i s0 d L0) as (cand & Ef).
  destruct (get_update_run i s d s0 t0 cand s0 [] E Ef)
    as (h & s' & t & Eq & Hh & _).
  now exists h, cand, s', t.
Qed.
End decision_claims.

(** ** No policy answers ATTEMPT *)

Section outcome_claims.
Context `{Collaborators}.

(** C10.  [get_update] of either policy returns normally, in every state,
    and its outcome is SKIP or FORCED: ATTEMPT is never returned. *)
Theorem get_update_never_attempt (m : Manager) s :
  exists h cand s' t,
    get_update m s = (Ok (h, cand), s', t) /\
    (h = SKIP \/ h = FORCED) /\ h <> ATTEMPT.
Proof.
  destruct m as [i|i]; cbn [get_update].
  - exists FORCED, (Firmware_latest None), s, []. split; [reflexivity|].
    split; [now right | discriminate].
  - destruct (get_update_returns i s) as (h & cand & s' & t & Eq & Hh).
    exists h, cand, s', t. split; [exact Eq|]. split; [exact Hh|].
    destruct Hh as [-> | ->]; discriminate.
Qed.
End outcome_claims.

(** ** The manager selector and the unknown-device policy *)

Section selector_claims.
Context `{Collaborators}.

(** C7.  [get_update_manager] returns a policy bound to the identity it
    was given; the policy is the unknown-device one exactly when the
    identity is "unknown".  For any other identity the only effect is the
    gauge set to the number of device rows.  The unknown-device policy is
    returned with [POLL_TIME_UPDATING] as its cadence; its [get_update]
    returns FORCED with [Firmware.latest(None)] and its [update_log]
    returns at once, both without touching the state, so the cadence
    stays. *)
Theorem get_update_manager_selects dev_id s :
  let r := get_update_manager dev_id s in
  (exists m,
     result_of r = Ok m /\ manager_dev_id m = dev_id /\
     ((exists j, m = Unknown j) <-> dev_id = "unknown") /\
     (dev_id <> "unknown" ->
        m = Registered dev_id /\
        events_of r = [Gauge (size (db_device s))] /\
        devices_count (state_of r) = Some (size (db_device s))) /\
     (dev_id = "unknown" ->
        events_of r = [] /\
        poll_time m (state_of r) = (Ok POLL_TIME_UPDATING, state_of r, []))) /\
  (forall j s1,
     get_update (Unknown j) s1 = (Ok (FORCED, Firmware_latest None), s1, [])) /\
  (forall j log_data s1, update_log (Unknown j) log_data s1 = (Ok tt, s1, [])).
Proof.
  cbn zeta. split; [|split; reflexivity].
  unfold get_update_manager.
  destruct (String.eqb_spec dev_id "unknown") as [->|Hne].
  - destruct (set_poll_time_run "unknown" POLL_TIME_UPDATING s)
      as (s' & Es & Ps & _).
    unfold UnknownUpdateManager.init.
    rewrite (bind_Ok _ _ _ _ _ _ Es). cbn.
    exists (Unknown "unknown"). unfold result_of, events_of, state_of; cbn.
    split; [reflexivity|]. split; [reflexivity|].
    split; [split; eauto|].
    split; [congruence|]. intros _. split; [reflexivity|].
    unfold poll_time, UpdateManager.poll_time, bind, get_state, ret; cbn.
    unfold poll_time_of in Ps. now rewrite Ps.
  - exists (Registered dev_id). unfold result_of, events_of, state_of; cbn.
    split; [reflexivity|]. split; [reflexivity|].
    split; [split; [intros [j Hj]; discriminate | contradiction]|].
    split; [intros _; now repeat split | contradiction].
Qed.
End selector_claims.

(** ** The poll interval *)

Lemma below_forall (P : N -> bool) (k : nat) :
  forallb P (map N.of_nat (seq 0 k)) = true ->
  forall n, (n < N.of_nat k)%N -> P n = true.
Proof.
  intros Hall n Hn. rewrite forallb_forall in Hall. apply Hall.
  apply in_map_iff. exists (N.to_nat n). split; [apply N2Nat.id|].
  apply in_seq. lia.
Qed.

Lemma two_digits_ok_hours n : (n < 24)%N -> two_digits_ok 23 n = true.
Proof. apply (below_forall (two_digits_ok 23) 24). vm_compute. reflexivity. Qed.

Lemma two_digits_ok_sixty n : (n < 60)%N -> two_digits_ok 59 n = true.
Proof. apply (below_forall (two_digits_ok 59) 60). vm_compute. reflexivity. Qed.

Lemma two_digits_ok_inv limit n :
  two_digits_ok limit n = true ->
  exists a b,
    two_digits n = String a (String b EmptyString) /\
    Ascii.eqb a ":" = false /\ Ascii.eqb b ":" = false /\
    strptime_field limit (String a (String b EmptyString)) = Some n.
Proof.
  unfold two_digits_ok. intros Hok.
  destruct (two_digits n) as [|a [|b [|? ?]]] eqn:E; try discriminate.
  apply andb_prop in Hok as [Hab Hf]. apply andb_prop in Hab as [Ha Hb].
  apply negb_true_iff in Ha, Hb.
  destruct (strptime_field limit (String a (String b "")))%string as [v|] eqn:Ev;
    [|discriminate].
  apply N.eqb_eq in Hf. subst v. now exists a, b.
Qed.

(** An "HH:MM:SS" string parses back to its three fields. *)
Lemma strptime_format_HMS h m sec :
  (h < 24)%N -> (m < 60)%N -> (sec < 60)%N ->
  strptime_HMS (format_HMS h m sec) = Some (h, m, sec).
Proof.
  intros Hh Hm Hs.
  destruct (two_digits_ok_inv _ _ (two_digits_ok_hours h Hh)) as (a1 & b1 & E1 & A1 & B1 & F1).
  destruct (two_digits_ok_inv _ _ (two_digits_ok_sixty m Hm)) as (a2 & b2 & E2 & A2 & B2 & F2).
  destruct (two_digits_ok_inv _ _ (two_digits_ok_sixty sec Hs)) as (a3 & b3 & E3 & A3 & B3 & F3).
  unfold strptime_HMS, format_HMS. rewrite E1, E2, E3.
  cbv beta iota fix delta [String.append]. cbn [split_on].
  rewrite A1, B1, A2, B2, A3, B3. cbn [Ascii.eqb Bool.eqb].
  now rewrite F1, F2, F3.
Qed.

Section cadence_claims.
Context `{Collaborators}.

Lemma poll_seconds_run i s h m sec :
  strptime_HMS (poll_time_of s i) = Some (h, m, sec) ->
  UpdateManager.poll_seconds i s = (Ok (h * 3600 + m * 60 + sec)%N, s, []).
Proof.
  intros E. unfold UpdateManager.poll_seconds, UpdateManager.poll_time.
  unfold bind, get_state, ret. cbn. unfold poll_time_of in E. now rewrite E.
Qed.

(** C9.  [poll_seconds] is hours*3600 + minutes*60 + seconds of the
    interval string of the device: for whatever fields [strptime] reads in
    it, and in particular for an "HH:MM:SS" string with HH below 24 and MM,
    SS below 60.  Assigning the idle default [POLL_TIME] to [poll_time]
    leaves no entry for the device in [device_poll_time], and a device
    without an entry reads [POLL_TIME]. *)
Theorem poll_interval (m : Manager) s :
  let i := manager_dev_id m in
  (forall h mi sec,
     strptime_HMS (poll_time_of s i) = Some (h, mi, sec) ->
     poll_seconds m s = (Ok (h * 3600 + mi * 60 + sec)%N, s, [])) /\
  (forall h mi sec,
     (h < 24)%N -> (mi < 60)%N -> (sec < 60)%N ->
     poll_time_of s i = format_HMS h mi sec ->
     poll_seconds m s = (Ok (h * 3600 + mi * 60 + sec)%N, s, [])) /\
  (let r := UpdateManager.set_poll_time i POLL_TIME s in
   result_of r = Ok tt /\ device_poll_time (state_of r) !! i = None /\
   poll_time m (state_of r) = (Ok POLL_TIME, state_of r, [])) /\
  (device_poll_time s !! i = None -> poll_time m s = (Ok POLL_TIME, s, [])).
Proof.
  cbn zeta. set (i := manager_dev_id m).
  assert (Hread : forall s0, device_poll_time s0 !! i = None ->
                  poll_time m s0 = (Ok POLL_TIME, s0, [])).
  { intros s0 L. unfold poll_time, UpdateManager.poll_time, bind, get_state, ret.
    cbn. fold i. now rewrite L. }
  split; [intros h mi sec E; now apply poll_seconds_run|].
  split.
  { intros h mi sec Hh Hm Hs E. apply poll_seconds_run. fold i.
    rewrite E. now apply strptime_format_HMS. }
  split; [|apply Hread].
  assert (Hdel : device_poll_time
                   (state_of (UpdateManager.set_poll_time i POLL_TIME s)) !! i = None).
  { unfold UpdateManager.set_poll_time. rewrite String.eqb_refl. cbn.
    unfold modify, state_of; cbn.
    destruct (device_poll_time s !! i) eqn:L; cbn; [apply lookup_delete_eq | exact L]. }
  split; [|split; [exact Hdel | now apply Hread]].
  unfold UpdateManager.set_poll_time. now rewrite String.eqb_refl.
Qed.
End cadence_claims.

(** ** Appending to the log *)

Section update_log_lemmas.
Context `{Collaborators}.

Lemma update_log_run i line s d s0 t0 :
  DeviceUpdateManager.get_device i s = (Ok d, s0, t0) ->
  let d' := device_after_line line d in
  let subs := subscribers_of s0 i in
  DeviceUpdateManager.update_log i (Some line) s =
    (Ok tt, db_saved d' [F_progress; F_last_log] s0,
     (t0
      ++ (if startswith (str "Installing Update Chunk Artifacts.") line
          then broadcast subs None else [])
      ++ (if bool_decide (line = str "Skipped Update.") then []
          else broadcast subs (Some (line ++ [10%N])%list))
      ++ [FreshCacheSet i d' 600; DbSave d' [F_progress; F_last_log]])%list).
Proof.
  intros E d' subs. unfold DeviceUpdateManager.update_log.
  rewrite (bind_Ok _ _ _ _ _ _ E). unfold d', device_after_line.
  destruct (startswith (str "Installing Update Chunk Artifacts.") line);
    destruct (bool_decide (line = str "Skipped Update.")); cbn [negb];
    unfold bind; rewrite ?publish_log_run; cbn [ret];
    rewrite ?publish_log_run; rewrite save_device_run; cbn [app];
    rewrite ?app_nil_r; fold subs; reflexivity.
Qed.

(** The row of the device after [update_log] carries the saved buffer. *)
Lemma db_saved_log_row d' s row :
  db_device (db_saved d' [F_progress; F_last_log] s) !! uuid d' = Some row ->
  last_log row = last_log d' /\
  progress row = PInt (progress_value (progress d')).
Proof.
  unfold db_saved. destruct (db_device s !! uuid d') as [row0|] eqn:L; cbn.
  - rewrite lookup_insert_eq. intros [= <-]. now split.
  - rewrite L. discriminate.
Qed.

Lemma marker_not_skipped line :
  startswith (str "Installing Update Chunk Artifacts.") line = true ->
  bool_decide (line = str "Skipped Update.") = false.
Proof.
  intros Hm. apply bool_decide_eq_false_2. intros ->. discriminate Hm.
Qed.

Lemma device_after_line_uuid line d : uuid (device_after_line line d) = uuid d.
Proof.
  unfold device_after_line.
  destruct (last_log d), (last (findall_progress line)),
    (startswith (str "Installing Update Chunk Artifacts.") line),
    (bool_decide (line = str "Skipped Update.")); reflexivity.
Qed.

(** What [update_log] leaves of a line, in one statement: the device it
    saves, the row, the deliveries and the untouched entry of the cache. *)
Lemma update_log_effects i line s d s0 t0 :
  DeviceUpdateManager.get_device i s = (Ok d, s0, t0) ->
  let d' := device_after_line line d in
  exists s' t,
    DeviceUpdateManager.update_log i (Some line) s = (Ok tt, s', t) /\
    In (DbSave d' [F_progress; F_last_log]) t /\
    deliveries t =
      ((if startswith (str "Installing Update Chunk Artifacts.") line
        then broadcast (subscribers_of s i) None else [])
       ++ (if bool_decide (line = str "Skipped Update.") then []
           else broadcast (subscribers_of s i) (Some (line ++ [10%N])%list)))%list /\
    (forall row, db_device s' !! uuid d = Some row ->
       last_log row = last_log d' /\
       progress row = PInt (progress_value (progress d'))) /\
    cache_lookup s' i = Some d.
Proof.
  intros E d'.
  destruct (get_device_run i s) as (d_ & s0_ & t0_ & E_ & L0 & (F1 & _) & Dt).
  rewrite E in E_. injection E_ as <- <- <-.
  assert (Hsub : subscribers_of s0 i = subscribers_of s i)
    by (unfold subscribers_of; now rewrite F1).
  do 2 eexists. split; [apply (update_log_run i line s d s0 t0 E)|].
  rewrite Hsub. fold d'.
  split; [rewrite !in_app_iff; do 3 right; right; left; reflexivity|].
  split.
  { rewrite !deliveries_app, Dt.
    destruct (startswith (str "Installing Update Chunk Artifacts.") line),
      (bool_decide (line = str "Skipped Update."));
      rewrite ?deliveries_broadcast; cbn; now rewrite ?app_nil_r. }
  split; [|rewrite cache_lookup_db_saved; exact L0].
  intros row Hrow. unfold d' in *.
  rewrite <- (device_after_line_uuid line d) in Hrow.
  now apply db_saved_log_row in Hrow.
Qed.
End update_log_lemmas.

Section update_log_claims.
Context `{Collaborators}.

(** C3.  For a line that begins with "Installing Update Chunk Artifacts.",
    [update_log] returns normally; every subscriber is first sent [None] and
    then the line followed by a newline, and nothing else is delivered.
    Whatever the buffer held before, the device that is saved, and its
    persisted row, hold exactly the line followed by a newline. *)
Theorem update_log_reset_marker i line s d s0 t0 :
  DeviceUpdateManager.get_device i s = (Ok d, s0, t0) ->
  startswith (str "Installing Update Chunk Artifacts.") line = true ->
  let appended := (line ++ [10%N])%list in
  exists d' s' t,
    DeviceUpdateManager.update_log i (Some line) s = (Ok tt, s', t) /\
    deliveries t =
      (broadcast (subscribers_of s i) None
       ++ broadcast (subscribers_of s i) (Some appended))%list /\
    In (DbSave d' [F_progress; F_last_log]) t /\
    last_log d' = Some appended /\
    (forall row, db_device s' !! uuid d = Some row -> last_log row = Some appended).
Proof.
  intros E Hm appended.
  destruct (update_log_effects i line s d s0 t0 E) as (s' & t & Eq & Hin & Hd & Hrow & _).
  rewrite Hm, (marker_not_skipped line Hm) in Hd.
  assert (Hlog : last_log (device_after_line line d) = Some appended).
  { unfold device_after_line. rewrite Hm, (marker_not_skipped line Hm).
    destruct (last_log d), (last (findall_progress line)); reflexivity. }
  exists (device_after_line line d), s', t.
  repeat split; try assumption.
  intros row Hr. apply Hrow in Hr as [-> _]. exact Hlog.
Qed.

(** C4, as the code has it.  For the line "Skipped Update.", [update_log]
    returns normally, delivers nothing to any subscriber and appends
    nothing: the device it saves, and the persisted row, carry the text of
    the log of the device it read, where a log that was [None] is stored as
    the empty string (lines 290-291); the progress of the saved device is
    the one it read.  For a [None] line [update_log] returns at once: same
    state, no effect at all. *)
Theorem update_log_skipped_or_null i s d s0 t0 :
  DeviceUpdateManager.get_device i s = (Ok d, s0, t0) ->
  (exists d' s' t,
     DeviceUpdateManager.update_log i (Some (str "Skipped Update.")) s = (Ok tt, s', t) /\
     deliveries t = [] /\
     In (DbSave d' [F_progress; F_last_log]) t /\
     last_log d' = Some (log_text d) /\
     progress d' = progress d /\
     (forall row, db_device s' !! uuid d = Some row ->
        last_log row = Some (log_text d))) /\
  DeviceUpdateManager.update_log i None s = (Ok tt, s, []).
Proof.
  intros E. split; [|reflexivity].
  set (line := str "Skipped Update.").
  destruct (update_log_effects i line s d s0 t0 E) as (s' & t & Eq & Hin & Hd & Hrow & _).
  assert (Hdev : device_after_line line d =
               match last_log d with
               | None => set_last_log (Some []) d
               | Some _ => d
               end) by reflexivity.
  assert (Hlog : last_log (device_after_line line d) = Some (log_text d)).
  { rewrite Hdev. unfold log_text. destruct (last_log d) eqn:El; [|reflexivity].
    now rewrite El. }
  exists (device_after_line line d), s', t.
  split; [exact Eq|]. split; [exact Hd|]. split; [exact Hin|].
  split; [exact Hlog|].
  split; [rewrite Hdev; destruct (last_log d); reflexivity|].
  intros row Hr. apply Hrow in Hr as [-> _]. exact Hlog.
Qed.
End update_log_claims.

(** ** The progress pattern *)

Section pattern_lemmas.
Context `{Collaborators}.

Lemma str_Downloaded :
  str "Downloaded " = [68; 111; 119; 110; 108; 111; 97; 100; 101; 100; 32]%N.
Proof. reflexivity. Qed.

Lemma str_percent : str "%" = [37%N].
Proof. reflexivity. Qed.

Lemma is_Nd_ascii c :
  (c < 128)%N -> is_Nd c = (48 <=? c)%N && (c <=? 57)%N.
Proof.
  intros Hc. unfold is_Nd. rewrite (Nd_ascii c Hc).
  now destruct ((48 <=? c)%N && (c <=? 57)%N).
Qed.

Lemma is_Nd_not_D c : is_Nd c = true -> c <> 68%N.
Proof. intros Hc ->. now rewrite is_Nd_ascii in Hc. Qed.

Lemma is_Nd_percent : is_Nd 37 = false.
Proof. now rewrite is_Nd_ascii. Qed.

Lemma startswith_inv p s :
  startswith p s = true -> exists r, s = (p ++ r)%list.
Proof.
  revert s. induction p as [|a p IH]; intros s Hs.
  - exists s. reflexivity.
  - destruct s as [|b s]; [discriminate|]. cbn [startswith] in Hs.
    destruct (N.eqb_spec a b) as [->|]; [|discriminate].
    destruct (IH s Hs) as [r ->]. exists r. reflexivity.
Qed.

Lemma startswith_app p r : startswith p (p ++ r)%list = true.
Proof.
  induction p as [|a p IH]; [reflexivity|].
  cbn [app startswith]. now rewrite N.eqb_refl.
Qed.

Lemma span_Nd_inv s ds r :
  span_Nd s = (ds, r) -> s = (ds ++ r)%list /\ forallb is_Nd ds = true.
Proof.
  revert ds r. induction s as [|c s IH]; intros ds r Hs; cbn [span_Nd] in Hs.
  - injection Hs as <- <-. now split.
  - destruct (is_Nd c) eqn:Hc.
    + destruct (span_Nd s) as [ds0 r0]. injection Hs as <- <-.
      destruct (IH ds0 r0 eq_refl) as [-> Hd]. split; [reflexivity|].
      cbn [forallb]. now rewrite Hc.
    + injection Hs as <- <-. now split.
Qed.

Lemma span_Nd_app ds post :
  forallb is_Nd ds = true ->
  span_Nd (ds ++ 37%N :: post)%list = (ds, 37%N :: post).
Proof.
  induction ds as [|c ds IH]; intros Hd.
  - cbn [app span_Nd]. now rewrite is_Nd_percent.
  - cbn [forallb] in Hd. apply andb_prop in Hd as [Hc Hd].
    cbn [app span_Nd]. now rewrite Hc, (IH Hd).
Qed.

(** The pattern matches at the head of a text exactly when the text begins
    with "Downloaded ", a number and "%". *)
Lemma progress_match_at_intro ds post :
  ds <> [] -> forallb is_Nd ds = true ->
  progress_match_at (str "Downloaded " ++ ds ++ 37%N :: post)%list
  = Some (ds, (11 + length ds + 1)%nat).
Proof.
  intros Hne Hd. unfold progress_match_at.
  rewrite startswith_app.
  change (drop 11 (str "Downloaded " ++ ds ++ 37%N :: post)%list)
    with (ds ++ 37%N :: post)%list.
  rewrite (span_Nd_app ds post Hd).
  destruct ds; [contradiction | reflexivity].
Qed.

Lemma progress_match_at_inv s ds n :
  progress_match_at s = Some (ds, n) ->
  exists post,
    s = (str "Downloaded " ++ ds ++ 37%N :: post)%list /\
    ds <> [] /\ forallb is_Nd ds = true /\
    n = (11 + length ds + 1)%nat.
Proof.
  unfold progress_match_at. intros Hm.
  destruct (startswith (str "Downloaded ") s) eqn:Hs; [|discriminate].
  destruct (startswith_inv _ _ Hs) as [r ->].
  change (drop 11 (str "Downloaded " ++ r)%list) with r in Hm.
  destruct (span_Nd r) as [ds0 r0] eqn:Hsp.
  destruct (span_Nd_inv _ _ _ Hsp) as [-> Hd].
  destruct ds0 as [|c ds0]; [discriminate|].
  destruct (startswith (str "%") r0) eqn:Hp; [|discriminate].
  destruct (startswith_inv _ _ Hp) as [post ->].
  injection Hm as <- <-. exists post. now repeat split.
Qed.

Lemma progress_match_at_head c s x :
  progress_match_at (c :: s) = Some x -> c = 68%N.
Proof.
  unfold progress_match_at. rewrite str_Downloaded. cbn [startswith].
  destruct (N.eqb_spec 68 c) as [<-|]; [reflexivity | discriminate].
Qed.

Lemma no_D_digits ds post :
  forallb is_Nd ds = true ->
  no_D (length ds + 1) (ds ++ 37%N :: post)%list.
Proof.
  induction ds as [|c ds IH]; intros Hd.
  - cbn. split; [discriminate | exact I].
  - cbn [forallb] in Hd. apply andb_prop in Hd as [Hc Hd].
    cbn [app length Nat.add no_D].
    split; [now apply is_Nd_not_D | exact (IH Hd)].
Qed.

(** [findall] resumes after a match; the characters it passes over cannot
    begin another match, because a match has its only capital D in front.
    So it finds the matches of every position. *)
Lemma findall_from_all_matches s :
  forall k, no_D k s -> findall_from k s = all_matches s.
Proof.
  induction s as [|c s IH]; intros k Hk; [reflexivity|].
  cbn [findall_from all_matches]. destruct k as [|k].
  - destruct (progress_match_at (c :: s)) as [[ds n]|] eqn:Hm.
    + f_equal. apply IH.
      destruct (progress_match_at_inv _ _ _ Hm) as (post & Es & _ & Hd & ->).
      rewrite str_Downloaded in Es. injection Es as -> ->.
      replace (11 + length ds + 1 - 1)%nat with (10 + (length ds + 1))%nat by lia.
      cbn [Nat.add app no_D].
      repeat (split; [discriminate|]).
      now apply no_D_digits.
    + now apply IH.
  - destruct Hk as [Hc Hk].
    destruct (progress_match_at (c :: s)) as [x|] eqn:Hm.
    + now apply progress_match_at_head in Hm.
    + now apply IH.
Qed.

Lemma findall_progress_all_matches s : findall_progress s = all_matches s.
Proof. apply findall_from_all_matches. now destruct s. Qed.

Lemma all_matches_app pre s :
  exists l, all_matches (pre ++ s)%list = (l ++ all_matches s)%list.
Proof.
  induction pre as [|c pre [l IH]]; [now exists []|].
  cbn [app all_matches].
  destruct (progress_match_at _) as [[ds n]|]; rewrite IH.
  - now exists (ds :: l).
  - now exists l.
Qed.

Lemma all_matches_occurrence t :
  all_matches t <> [] ->
  exists p ds post,
    t = (p ++ str "Downloaded " ++ ds ++ 37%N :: post)%list /\
    ds <> [] /\ forallb is_Nd ds = true.
Proof.
  induction t as [|c t IH]; intros Hne; [contradiction|].
  cbn [all_matches] in Hne.
  destruct (progress_match_at (c :: t)) as [[ds n]|] eqn:Hm.
  - destruct (progress_match_at_inv _ _ _ Hm) as (post & Es & Hd1 & Hd2 & _).
    now exists [], ds, post.
  - destruct (IH Hne) as (p & ds & post & -> & Hd1 & Hd2).
    now exists (c :: p), ds, post.
Qed.

(** The last match [findall] reports is the rightmost occurrence. *)
Lemma findall_progress_last line pre ds post :
  line = (pre ++ str "Downloaded " ++ ds ++ str "%" ++ post)%list ->
  ds <> [] -> forallb is_Nd ds = true ->
  (forall pre' ds' post',
     line = (pre' ++ str "Downloaded " ++ ds' ++ str "%" ++ post')%list ->
     ds' <> [] -> forallb is_Nd ds' = true ->
     length pre' <= length pre) ->
  last (findall_progress line) = Some ds.
Proof.
  intros El Hne Hd Hlast. rewrite findall_progress_all_matches, El.
  rewrite str_percent. cbn [app].
  destruct (all_matches_app pre (str "Downloaded " ++ ds ++ 37%N :: post)) as [l ->].
  set (rest := (str "ownloaded " ++ ds ++ 37%N :: post)%list).
  change (str "Downloaded " ++ ds ++ 37%N :: post)%list with (68%N :: rest).
  cbn [all_matches].
  change (68%N :: rest) with (str "Downloaded " ++ ds ++ 37%N :: post)%list.
  rewrite (progress_match_at_intro ds post Hne Hd).
  destruct (all_matches rest) as [|m0 ms] eqn:Hr; [apply last_snoc|].
  assert (Hrest : all_matches rest <> []) by (rewrite Hr; discriminate).
  exfalso.
  destruct (all_matches_occurrence rest Hrest) as (p & ds' & post' & Er & Hd1 & Hd2).
  assert (Hl := Hlast (pre ++ 68%N :: p)%list ds' post').
  rewrite length_app in Hl. cbn [length] in Hl.
  enough (length pre + S (length p) <= length pre) by lia.
  apply Hl; [|assumption..].
  rewrite El, <- app_assoc, str_percent. f_equal. cbn [app].
  change (str "Downloaded " ++ ds ++ 37%N :: post)%list with (68%N :: rest).
  now rewrite Er.
Qed.

Lemma findall_progress_none line :
  (forall pre ds post,
     line = (pre ++ str "Downloaded " ++ ds ++ str "%" ++ post)%list ->
     ds <> [] -> forallb is_Nd ds = true -> False) ->
  findall_progress line = [].
Proof.
  intros Hno. rewrite findall_progress_all_matches.
  destruct (all_matches line) as [|m0 ms] eqn:Hr; [reflexivity|].
  assert (Hne : all_matches line <> []) by (rewrite Hr; discriminate).
  destruct (all_matches_occurrence line Hne) as (p & ds & post & E & H1 & H2).
  destruct (Hno p ds post E H1 H2).
Qed.

Lemma progress_after_line line d :
  progress (device_after_line line d) =
    match last (findall_progress line) with
    | Some m => PStr m
    | None => progress d
    end.
Proof.
  unfold device_after_line.
  destruct (last_log d), (last (findall_progress line)),
    (startswith (str "Installing Update Chunk Artifacts.") line),
    (bool_decide (line = str "Skipped Update.")); reflexivity.
Qed.
End pattern_lemmas.

(** ** The claims above at a concrete device

    "dev1" is persisted in mode LATEST with firmware 1.0 installed, an old
    log, progress 0 and two subscribers; the latest firmware is 2.0. *)

(** C2, on the code.  The line "Downloaded 42% Downloaded 57%" has the two
    occurrences 42 and 57, and [update_log] saves the device with the
    progress of the last one: the row of "dev1" then holds 57.  The entry of
    the cache that [get_device] reads still says 0, the progress of the
    device as it was first read.  The next line, "Connection lost", has no
    occurrence; [update_log] reads the device from that entry and saves it
    again, and the progress in the row goes from 57 back to 0. *)
Theorem update_log_progress :
  let update_log := @DeviceUpdateManager.update_log example_collaborators "dev1" in
  let line1 := str "Downloaded 42% Downloaded 57%" in
  let line2 := str "Connection lost" in
  let r1 := update_log (Some line1) example_state in
  let r2 := update_log (Some line2) (state_of r1) in
  @findall_progress example_collaborators line1 = [str "42"; str "57"] /\
  @findall_progress example_collaborators line2 = [] /\
  result_of r1 = Ok tt /\
  progress <$> db_device (state_of r1) !! "dev1" = Some (PInt 57) /\
  progress <$> cache_lookup (state_of r1) "dev1" = Some (PInt 0) /\
  result_of r2 = Ok tt /\
  progress <$> db_device (state_of r2) !! "dev1" = Some (PInt 0).
Proof. vm_compute. repeat split. Qed.

Lemma get_update_decision_witness :
  exists h s' t,
    @DeviceUpdateManager.get_update example_collaborators "dev1" example_state
      = (Ok (h, Some fw_2_0), s', t) /\
    h = FORCED /\
    @poll_time_of example_collaborators s' "dev1" = "00:00:05" /\
    deliveries t = [].
Proof.
  pose (r := @DeviceUpdateManager.get_device example_collaborators "dev1" example_state).
  assert (E : r = (Ok (set_last_log (Some (str "old log")) example_device),
                   state_of r, events_of r)) by (vm_compute; reflexivity).
  assert (E' : @DeviceUpdateManager._get_firmware example_collaborators "dev1" (state_of r)
               = (Ok (Some fw_2_0), state_of r, [])) by (vm_compute; reflexivity).
  destruct (@get_update_decision example_collaborators "dev1" example_state
              _ _ _ _ _ _ E E')
    as (h & s' & t & Eq & _ & _ & _ & Hforced & _ & _ & Hpoll & _ & Hquiet & _).
  assert (Hh : h = FORCED).
  { apply (Hforced fw_2_0); [reflexivity | reflexivity | | ]; vm_compute; discriminate. }
  exists h, s', t. split; [exact Eq|]. split; [exact Hh|].
  split; [exact (Hpoll Hh)|]. apply Hquiet. right. reflexivity.
Defined.

Lemma update_log_reset_marker_witness :
  exists d' s' t,
    @DeviceUpdateManager.update_log example_collaborators "dev1"
      (Some (str "Installing Update Chunk Artifacts.")) example_state = (Ok tt, s', t) /\
    deliveries t =
      [Deliver 7 None; Deliver 8 None;
       Deliver 7 (Some (str "Installing Update Chunk Artifacts." ++ [10%N])%list);
       Deliver 8 (Some (str "Installing Update Chunk Artifacts." ++ [10%N])%list)] /\
    In (DbSave d' [F_progress; F_last_log]) t /\
    last_log d' = Some (str "Installing Update Chunk Artifacts." ++ [10%N])%list.
Proof.
  pose (r := @DeviceUpdateManager.get_device example_collaborators "dev1" example_state).
  assert (E : r = (Ok (set_last_log (Some (str "old log")) example_device),
                   state_of r, events_of r)) by (vm_compute; reflexivity).
  destruct (@update_log_reset_marker example_collaborators "dev1"
              (str "Installing Update Chunk Artifacts.") example_state _ _ _ E eq_refl)
    as (d' & s' & t & Eq & Hd & Hc & Hl & _).
  exists d', s', t. split; [exact Eq|]. split; [exact Hd|]. split; [exact Hc | exact Hl].
Defined.

Lemma update_log_skipped_or_null_witness :
  exists d' s' t,
    @DeviceUpdateManager.update_log example_collaborators "dev1"
      (Some (str "Skipped Update.")) example_state = (Ok tt, s', t) /\
    deliveries t = [] /\
    In (DbSave d' [F_progress; F_last_log]) t /\
    last_log d' = Some (str "old log").
Proof.
  pose (r := @DeviceUpdateManager.get_device example_collaborators "dev1" example_state).
  assert (E : r = (Ok (set_last_log (Some (str "old log")) example_device),
                   state_of r, events_of r)) by (vm_compute; reflexivity).
  destruct (@update_log_skipped_or_null example_collaborators "dev1" example_state _ _ _ E)
    as ((d' & s' & t & Eq & Hd & Hc & Hl & _) & _).
  exists d', s', t. split; [exact Eq|]. split; [exact Hd|]. split; [exact Hc|].
  exact Hl.
Defined.

(** The row of the pinned device has no log ([None]); "Skipped Update."
    stores the empty string in it. *)
Lemma update_log_skipped_stores_empty_log :
  let r := @DeviceUpdateManager.update_log example_collaborators "dev1"
             (Some (str "Skipped Update.")) pinned_state in
  result_of r = Ok tt /\
  last_log <$> db_device pinned_state !! "dev1" = Some None /\
  last_log <$> db_device (state_of r) !! "dev1" = Some (Some []) /\
  db_device (state_of r) !! "dev1" <> db_device pinned_state !! "dev1".
Proof. vm_compute. repeat split. discriminate. Qed.

(** ** Log subscriptions *)

Lemma list_remove_first_snoc_fresh cb l :
  ~ In cb l -> list_remove_first cb (l ++ [cb]) = Some l.
Proof.
  induction l as [|y l IH]; intros Hn; cbn.
  - now rewrite decide_True.
  - rewrite decide_False by (intros ->; apply Hn; now left).
    rewrite IH; [reflexivity|]. intros Hin. apply Hn. now right.
Qed.

Lemma list_remove_first_In cb l :
  In cb l ->
  exists rest,
    list_remove_first cb l = Some rest /\ S (length rest) = length l /\
    forall x, x <> cb -> (In x rest <-> In x l).
Proof.
  induction l as [|y l IH]; intros Hin; [contradiction|]. cbn.
  destruct (decide (cb = y)) as [->|Hne].
  - exists l. split; [reflexivity|]. split; [reflexivity|].
    intros x Hx. split; [now right|]. intros [->|Hl]; [contradiction | exact Hl].
  - destruct Hin as [->|Hin]; [contradiction|].
    destruct (IH Hin) as (rest & -> & Hlen & Hmem).
    exists (y :: rest). split; [reflexivity|]. split; [cbn; now rewrite Hlen|].
    intros x Hx. cbn. now rewrite (Hmem x Hx).
Qed.

Section subscription_claims.
Context `{Collaborators}.

(** The registered-device policy: entering the subscription appends the
    callback and delivers the buffered log to it, once. *)
Lemma subscribe_log_enter_registered i cb s d s0 t0 :
  DeviceUpdateManager.get_device i s = (Ok d, s0, t0) ->
  exists s1,
    UpdateManager.subscribe_log_enter i (get_device (Registered i)) cb s
      = (Ok tt, s1, (t0 ++ [Deliver cb (last_log d)])%list) /\
    subscribers_of s1 i = (subscribers_of s i ++ [cb])%list /\
    (forall j, j <> i -> subscribers_of s1 j = subscribers_of s j).
Proof.
  intros E.
  destruct (get_device_run i s) as (d_ & s0_ & t0_ & E_ & _ & (F1 & _) & _).
  rewrite E in E_. injection E_ as <- <- <-.
  unfold UpdateManager.subscribe_log_enter. cbn [get_device].
  rewrite bind_assoc_run, (bind_Ok _ _ _ _ _ _ E).
  eexists. split; [reflexivity|]. unfold subscribers_of; cbn. rewrite F1.
  split; [now rewrite lookup_insert_eq|].
  intros j Hj. now rewrite lookup_insert_ne.
Qed.

(** The registered-device policy: however the body ends, the [finally]
    block removes one registration of the callback; a cancelled body ends
    the scope normally, any other exception is passed on. *)
Lemma subscribe_log_registered {A} i cb (body : M A) s d s0 t0 :
  DeviceUpdateManager.get_device i s = (Ok d, s0, t0) ->
  exists s1,
    UpdateManager.subscribe_log_enter i (get_device (Registered i)) cb s
      = (Ok tt, s1, (t0 ++ [Deliver cb (last_log d)])%list) /\
    forall r s2 t2,
      body s1 = (r, s2, t2) -> In cb (subscribers_of s2 i) ->
      exists rest s3,
        list_remove_first cb (subscribers_of s2 i) = Some rest /\
        subscribe_log (Registered i) cb body s =
          (match r with
           | Ok a => Ok (Some a)
           | Raise CancelledError => Ok None
           | Raise e => Raise e
           end, s3, ((t0 ++ [Deliver cb (last_log d)]) ++ t2 ++ [])%list) /\
        subscribers_of s3 i = rest.
Proof.
  intros E.
  destruct (subscribe_log_enter_registered i cb s d s0 t0 E) as (s1 & Een & _).
  exists s1. split; [exact Een|].
  intros r s2 t2 Eb Hin.
  destruct (list_remove_first_In cb _ Hin) as (rest & Hrm & _).
  exists rest, (with_subscriptions (<[i:=rest]> (device_log_subscriptions s2)) s2).
  split; [exact Hrm|].
  unfold subscribe_log, UpdateManager.subscribe_log. cbn [manager_dev_id].
  rewrite Een, Eb.
  unfold UpdateManager.subscribe_log_exit, UpdateManager.log_subscribers.
  unfold bind, get_state, ret. cbn. fold (subscribers_of s2 i). rewrite Hrm. cbn.
  split; [destruct r as [a|[]]; reflexivity|].
  unfold subscribers_of; cbn. now rewrite lookup_insert_eq.
Qed.

(** With a callback that was not registered before and a body that leaves
    the subscriber list alone, the list is afterwards what it was. *)
Lemma subscribe_log_registered_restores {A} i cb (body : M A) s d s0 t0 :
  DeviceUpdateManager.get_device i s = (Ok d, s0, t0) ->
  ~ In cb (subscribers_of s i) ->
  (forall s1, subscribers_of (state_of (body s1)) i = subscribers_of s1 i) ->
  subscribers_of (state_of (subscribe_log (Registered i) cb body s)) i
  = subscribers_of s i.
Proof.
  intros E Hfresh Hbody.
  destruct (subscribe_log_enter_registered i cb s d s0 t0 E) as (s1 & Een & Hs1 & _).
  destruct (subscribe_log_registered i cb body s d s0 t0 E) as (s1' & Een' & Hexit).
  rewrite Een in Een'. injection Een' as <-.
  destruct (body s1) as [[r s2] t2] eqn:Eb.
  assert (Hs2 : subscribers_of s2 i = (subscribers_of s i ++ [cb])%list).
  { rewrite <- Hs1, <- (Hbody s1), Eb. reflexivity. }
  destruct (Hexit r s2 t2 eq_refl) as (rest & s3 & Hrm & Erun & Hs3).
  { rewrite Hs2. apply in_or_app. right. now left. }
  rewrite Erun. unfold state_of; cbn [fst snd]. rewrite Hs3.
  rewrite Hs2, (list_remove_first_snoc_fresh cb _ Hfresh) in Hrm.
  now injection Hrm as <-.
Qed.

(** C6.  The claim fails on the unknown-device policy.  There
    [get_device] returns [None]: [subscribe_log] appends the callback to the
    subscriber list of the identity and then raises [AttributeError] on
    [device.last_log], before its [try] block.  The callback receives no
    initial payload, the body never runs, and the callback stays in the
    list. *)
Theorem subscribe_log_unknown_device {A} j cb (body : M A) s :
  let r := subscribe_log (Unknown j) cb body s in
  result_of r = Raise AttributeError /\
  events_of r = [] /\
  subscribers_of (state_of r) j = (subscribers_of s j ++ [cb])%list.
Proof.
  cbn zeta. unfold subscribe_log, UpdateManager.subscribe_log. cbn [manager_dev_id].
  unfold UpdateManager.subscribe_log_enter, get_device, UpdateManager.get_device.
  unfold UpdateManager.log_subscribers, UpdateManager.set_log_subscribers.
  unfold bind, get_state, ret, modify, raise, result_of, events_of, state_of. cbn.
  split; [reflexivity|]. split; [reflexivity|].
  unfold subscribers_of; cbn. now rewrite lookup_insert_eq.
Qed.
End subscription_claims.

(** The unknown-device policy as [get_update_manager] returns it, with one
    callback and a body that ends normally. *)
Example subscribe_log_unknown_example :
  let m := Unknown "unknown" in
  let r := @subscribe_log example_collaborators unit m 3%nat (ret tt) example_state in
  result_of r = Raise AttributeError /\
  deliveries (events_of r) = [] /\
  subscribers_of example_state "unknown" = [] /\
  subscribers_of (state_of r) "unknown" = [3%nat].
Proof. vm_compute. repeat split. Qed.

(** The registered-device policy on the same state, with a body that is
    cancelled. *)
Example subscribe_log_registered_example :
  let r := @subscribe_log example_collaborators unit (Registered "dev1") 3%nat
             (raise CancelledError) example_state in
  result_of r = Ok None /\
  deliveries (events_of r) = [Deliver 3 (Some (str "old log"))] /\
  subscribers_of (state_of r) "dev1" = [7; 8]%nat.
Proof. vm_compute. repeat split. Qed.

(** ** The decision on concrete devices *)

(** A device never seen before: the first poll creates its row from the
    defaults, caches it, and offers the latest firmware. *)
Example get_update_first_poll :
  let r := @DeviceUpdateManager.get_update example_collaborators "dev9" empty_state in
  result_of r = Ok (FORCED, Some fw_2_0) /\
  @poll_time_of example_collaborators (state_of r) "dev9" = "00:00:05" /\
  (uuid <$> db_device (state_of r) !! "dev9") = Some "dev9" /\
  (uuid <$> cache_lookup (state_of r) "dev9") = Some "dev9".
Proof. vm_compute. repeat split. Qed.

(** A device persisted with version 2.0: SKIP at the idle cadence. *)
Example get_update_same_version :
  let s1 := with_db_device {[ "dev1" := set_fw_version "2.0" example_device ]}
              example_state in
  let r := @DeviceUpdateManager.get_update example_collaborators "dev1" s1 in
  result_of r = Ok (SKIP, Some fw_2_0) /\
  @poll_time_of example_collaborators (state_of r) "dev1" = "00:01:00".
Proof. vm_compute. repeat split. Qed.

(** A device persisted in state ERROR: SKIP, and FORCED when [force_update]
    is set as well. *)
Example get_update_error_state :
  let s1 := with_db_device {[ "dev1" := set_last_state ERROR example_device ]}
              example_state in
  let s2 := with_db_device
              {[ "dev1" := set_force_update true (set_last_state ERROR example_device) ]}
              example_state in
  result_of (@DeviceUpdateManager.get_update example_collaborators "dev1" s1)
    = Ok (SKIP, Some fw_2_0) /\
  result_of (@DeviceUpdateManager.get_update example_collaborators "dev1" s2)
    = Ok (FORCED, Some fw_2_0).
Proof. vm_compute. repeat split. Qed.

(** A device read once and then saved with version 2.0: the row has the
    new version, [get_device] still answers with version 1.0, and
    [get_update] still decides on 1.0; the row is read again only when the
    entry of the cache has expired. *)
Example save_device_stale_example :
  let get_device := @DeviceUpdateManager.get_device example_collaborators "dev1" in
  let r0 := get_device example_state in
  let d := set_last_log (Some (str "old log")) example_device in
  let r1 := @DeviceUpdateManager.save_device example_collaborators "dev1"
              (set_fw_version "2.0" d) [F_fw_version] (state_of r0) in
  let s1 := state_of r1 in
  result_of r0 = Ok d /\
  result_of r1 = Ok tt /\
  fw_version <$> db_device s1 !! "dev1" = Some "2.0" /\
  result_of (get_device s1) = Ok d /\
  fw_version d = "1.0" /\
  result_of (@DeviceUpdateManager.get_update example_collaborators "dev1" s1)
    = Ok (FORCED, Some fw_2_0) /\
  result_of (@DeviceUpdateManager.get_update example_collaborators "dev1" (elapse 600 s1))
    = Ok (SKIP, Some fw_2_0).
Proof. vm_compute. repeat split. Qed.

(** * Further properties of the manager *)

(** ** The column setters *)

Section setter_properties.
Context `{Collaborators}.

Lemma db_saved_row d fs s row :
  db_device s !! uuid d = Some row ->
  db_device (db_saved d fs s) !! uuid d = Some (foldr (copy_field d) row fs).
Proof.
  intros L. unfold db_saved. rewrite L. cbn. apply lookup_insert_eq.
Qed.

(** Reading the device, changing it and saving some columns. *)
Lemma read_modify_save_run i (g : Device -> Device) fs s d s0 t0 :
  DeviceUpdateManager.get_device i s = (Ok d, s0, t0) ->
  bind (DeviceUpdateManager.get_device i)
    (fun device => DeviceUpdateManager.save_device i (g device) fs) s
  = (Ok tt, db_saved (g d) fs s0,
     (t0 ++ [FreshCacheSet i (g d) 600; DbSave (g d) fs])%list).
Proof.
  intros E. rewrite (bind_Ok _ _ _ _ _ _ E). now rewrite save_device_run.
Qed.

Lemma saved_row d d' fs s row :
  uuid d' = uuid d ->
  db_device s !! uuid d = Some row ->
  db_device (db_saved d' fs s) !! uuid d = Some (foldr (copy_field d') row fs).
Proof.
  intros Hu Hrow. rewrite <- Hu. apply db_saved_row. now rewrite Hu.
Qed.

(** After a read and a save, [get_device] answers with the device of the
    read. *)
Lemma get_device_after_save i s d s0 t0 d' fs :
  DeviceUpdateManager.get_device i s = (Ok d, s0, t0) ->
  DeviceUpdateManager.get_device i (db_saved d' fs s0)
  = (Ok d, db_saved d' fs s0, []).
Proof.
  intros E.
  destruct (get_device_run i s) as (d_ & s0_ & t0_ & E_ & L0 & _).
  rewrite E in E_. injection E_ as <- <- <-.
  apply get_device_hit. now rewrite cache_lookup_db_saved.
Qed.

(** Reading the device, assigning one attribute and saving that column. *)
Lemma writes_column_intro {V} i (op : V -> M unit) (set : V -> Device -> Device)
    (f : Field) s d s0 t0 :
  DeviceUpdateManager.get_device i s = (Ok d, s0, t0) ->
  (forall v, op v =
     bind (DeviceUpdateManager.get_device i)
       (fun device => DeviceUpdateManager.save_device i (set v device) [f])) ->
  (forall v x, uuid (set v x) = uuid x) ->
  (forall v x row, copy_field (set v x) f row = set v row) ->
  writes_column i op set s d s0.
Proof.
  intros E Hop Huuid Hcopy v. cbn zeta. rewrite Hop.
  destruct (get_device_run i s) as (d_ & s0_ & t0_ & E_ & _ & _ & Dt).
  rewrite E in E_. injection E_ as <- <- <-.
  rewrite (read_modify_save_run i (set v) [f] s d s0 t0 E).
  unfold result_of, events_of, state_of; cbn [fst snd].
  split; [reflexivity|].
  split; [now rewrite deliveries_app, Dt|].
  split; [apply cache_main_db_saved|].
  split; [exact (get_device_after_save i s d s0 t0 _ _ E)|].
  intros row Hrow.
  rewrite (saved_row d (set v d) [f] s0 row (Huuid v d) Hrow).
  cbn. now rewrite Hcopy.
Qed.

(** X1.  Each of the six one-column setters returns normally and delivers
    nothing; the row of the device is the old row changed in that one
    column; the cache that [get_device] reads is not written, so
    [get_device] then answers, without any effect, with the device as it
    was read before the setter. *)
Theorem setters_write_one_column i s d s0 t0 :
  DeviceUpdateManager.get_device i s = (Ok d, s0, t0) ->
  writes_column i (DeviceUpdateManager.update_force_update i) set_force_update s d s0 /\
  writes_column i (DeviceUpdateManager.update_fw_version i) set_fw_version s d s0 /\
  writes_column i (DeviceUpdateManager.update_hardware i) set_hardware s d s0 /\
  writes_column i (DeviceUpdateManager.update_device_state i) set_last_state s d s0 /\
  writes_column i (DeviceUpdateManager.update_name i)
    (fun v => set_name (Some v)) s d s0 /\
  writes_column i (DeviceUpdateManager.update_log_complete i) set_log_complete s d s0.
Proof.
  intros E.
  split; [eapply (writes_column_intro i _ _ F_force_update); eauto|].
  split; [eapply (writes_column_intro i _ _ F_fw_version); eauto|].
  split; [eapply (writes_column_intro i _ _ F_hardware); eauto|].
  split; [eapply (writes_column_intro i _ _ F_last_state); eauto|].
  split; [eapply (writes_column_intro i _ _ F_name); eauto|].
  eapply (writes_column_intro i _ _ F_log_complete); eauto.
Qed.
End setter_properties.

Lemma setters_write_one_column_witness :
  let r := @DeviceUpdateManager.update_fw_version example_collaborators "dev1" "2.0"
             example_state in
  result_of r = Ok tt /\
  (fw_version <$> db_device (state_of r) !! "dev1") = Some "2.0" /\
  (fw_version <$> result_of_device
     (@DeviceUpdateManager.get_device example_collaborators "dev1" (state_of r)))
  = Some "1.0".
Proof.
  pose (r := @DeviceUpdateManager.get_device example_collaborators "dev1" example_state).
  assert (E : r = (Ok (set_last_log (Some (str "old log")) example_device),
                   state_of r, events_of r)) by (vm_compute; reflexivity).
  destruct (@setters_write_one_column example_collaborators "dev1" example_state _ _ _ E)
    as (_ & Hfw & _).
  destruct (Hfw "2.0") as (Hok & _ & _ & Hget & Hrow).
  cbn zeta. split; [exact Hok|].
  split; [|rewrite Hget; reflexivity].
  change (uuid (set_last_log (Some (str "old log")) example_device)) with "dev1" in Hrow.
  rewrite (Hrow (set_last_log (Some (str "old log")) example_device));
    [reflexivity | vm_compute; reflexivity].
Defined.

(** ** Reading a device that is not in the cache *)

Section read_properties.
Context `{Collaborators}.

(** What the body of [get_device] leaves alone, and what it may add. *)
Lemma get_device_uncached_frame i s :
  exists d s' t,
    DeviceUpdateManager.get_device_uncached i s = (Ok d, s', t) /\
    cache_main s' = cache_main s /\ now s' = now s /\
    device_log_subscriptions s' = device_log_subscriptions s /\
    device_poll_time s' = device_poll_time s /\
    hardware_default s' = Some (default_hardware s) /\
    (forall h, In h (db_hardware s) -> In h (db_hardware s')) /\
    deliveries t = [] /\
    match db_device s !! i with
    | Some row => d = row /\ db_device s' = db_device s
    | None =>
        d = created_device i (default_hardware s) /\
        db_device s' = <[i := d]> (db_device s) /\
        In (DbInsertDevice d) t
    end.
Proof.
  unfold DeviceUpdateManager.get_device_uncached, Hardware_get_or_create,
    Device_get_or_create, default_hardware, created_device.
  unfold bind, get_state, modify, emit, ret.
  destruct (hardware_default s) as [h|] eqn:Eh; cbn.
  - destruct (db_device s !! i) eqn:Ed; cbn; rewrite ?Ed;
      do 3 eexists; (split; [reflexivity|]); cbn; rewrite ?Eh;
      repeat (split; try reflexivity); auto.
  - destruct (decide (_ ∈ db_hardware s)); cbn;
      destruct (db_device s !! i) eqn:Ed; cbn; rewrite ?Ed;
      do 3 eexists; (split; [reflexivity|]); cbn;
      repeat (split; try reflexivity); auto;
      try (intros h0 Hh0; apply in_or_app; now left); try (now left);
      try (right; now left).
Qed.

(** Reading an identity that has neither a cache entry nor a row. *)
Lemma get_device_new_identity i s :
  cache_lookup s i = None ->
  db_device s !! i = None ->
  let d := created_device i (default_hardware s) in
  exists s' t,
    DeviceUpdateManager.get_device i s = (Ok d, s', t) /\
    uuid d = i /\
    db_device s' = <[i := d]> (db_device s) /\
    In (DbInsertDevice d) t /\ In (CacheSet i d 600) t /\
    deliveries t = [] /\
    hardware_default s' = Some (hardware d) /\
    DeviceUpdateManager.get_device i s' = (Ok d, s', []).
Proof.
  intros L Hrow d.
  destruct (get_device_uncached_frame i s)
    as (d0 & s1 & t1 & E & Fc & Fn & _ & _ & Fh & _ & Dt & Hd).
  rewrite Hrow in Hd. destruct Hd as (-> & Hdb & Hin).
  exists (cache_stored i d 600 s1), (t1 ++ [CacheSet i d 600])%list.
  split.
  { unfold DeviceUpdateManager.get_device, bind at 1, get_state. rewrite L.
    unfold bind at 1. rewrite E. reflexivity. }
  split; [reflexivity|]. split; [exact Hdb|].
  split; [apply in_or_app; now left|].
  split; [apply in_or_app; right; now left|].
  split; [now rewrite deliveries_app, Dt|].
  split; [exact Fh|].
  apply get_device_hit, cache_lookup_stored.
Qed.

(** Reading an identity whose entry is missing or has expired, and whose
    row exists: the row is returned and cached. *)
Lemma get_device_miss_row i s row :
  cache_lookup s i = None ->
  db_device s !! i = Some row ->
  exists s' t,
    DeviceUpdateManager.get_device i s = (Ok row, s', t) /\
    cache_lookup s' i = Some row /\
    db_device s' = db_device s /\
    cache_main s' !! i = Some (row, (now s + 600)%Z) /\
    In (CacheSet i row 600) t /\
    deliveries t = [].
Proof.
  intros L Hrow.
  destruct (get_device_uncached_frame i s)
    as (d0 & s1 & t1 & E & Fc & Fn & _ & _ & _ & _ & Dt & Hd).
  rewrite Hrow in Hd. destruct Hd as (-> & Hdb).
  exists (cache_stored i row 600 s1), (t1 ++ [CacheSet i row 600])%list.
  split.
  { unfold DeviceUpdateManager.get_device, bind at 1, get_state. rewrite L.
    unfold bind at 1. rewrite E. reflexivity. }
  split; [apply cache_lookup_stored|].
  split; [exact Hdb|].
  split; [unfold cache_stored; cbn; now rewrite lookup_insert_eq, Fn|].
  split; [apply in_or_app; right; now left|].
  now rewrite deliveries_app, Dt.
Qed.

(** X5.  A device asked for the first time (no cache entry, no row) is
    created: its row has the asked identity, the default hardware class and
    the column defaults; the row is inserted and cached, the default class
    is remembered, nobody is notified, and asking again returns the same
    device without any effect. *)
Theorem get_device_creates i s :
  cache_lookup s i = None ->
  db_device s !! i = None ->
  let d := created_device i (default_hardware s) in
  exists s' t,
    DeviceUpdateManager.get_device i s = (Ok d, s', t) /\
    uuid d = i /\
    db_device s' = <[i := d]> (db_device s) /\
    In (DbInsertDevice d) t /\ In (CacheSet i d 600) t /\
    deliveries t = [] /\
    hardware_default s' = Some (hardware d) /\
    DeviceUpdateManager.get_device i s' = (Ok d, s', []).
Proof. intros L Hrow. exact (get_device_new_identity i s L Hrow). Qed.

(** X6.  An entry of the cache that has reached its expiry time is not
    used: [get_device] answers with the persisted row, leaves the device
    table as it is, and stores the row in the cache for another 600. *)
Theorem get_device_after_expiry i s stale expiry row :
  cache_main s !! i = Some (stale, expiry) ->
  (expiry <= now s)%Z ->
  db_device s !! i = Some row ->
  exists s' t,
    DeviceUpdateManager.get_device i s = (Ok row, s', t) /\
    db_device s' = db_device s /\
    cache_main s' !! i = Some (row, (now s + 600)%Z) /\
    In (CacheSet i row 600) t.
Proof.
  intros Hc Hexp Hrow.
  assert (L : cache_lookup s i = None).
  { unfold cache_lookup. rewrite Hc.
    destruct (Z.ltb_spec (now s) expiry); [lia | reflexivity]. }
  destruct (get_device_uncached_frame i s)
    as (d0 & s1 & t1 & E & Fc & Fn & _ & _ & _ & _ & _ & Hd).
  rewrite Hrow in Hd. destruct Hd as (-> & Hdb).
  exists (cache_stored i row 600 s1), (t1 ++ [CacheSet i row 600])%list.
  split.
  { unfold DeviceUpdateManager.get_device, bind at 1, get_state. rewrite L.
    unfold bind at 1. rewrite E. reflexivity. }
  split; [exact Hdb|].
  split; [unfold cache_stored; cbn; now rewrite lookup_insert_eq, Fn|].
  apply in_or_app. right. now left.
Qed.
End read_properties.

Lemma get_device_creates_witness :
  exists s' t,
    @DeviceUpdateManager.get_device example_collaborators "dev9" empty_state
      = (Ok (@created_device example_collaborators "dev9" hw_default), s', t) /\
    db_device s' = {[ "dev9" := @created_device example_collaborators "dev9" hw_default ]}.
Proof.
  destruct (@get_device_creates example_collaborators "dev9" empty_state eq_refl eq_refl)
    as (s' & t & E & _ & Hdb & _).
  exists s', t. split; [exact E | exact Hdb].
Defined.

Lemma get_device_after_expiry_witness :
  let s := elapse 600
             (state_of (@DeviceUpdateManager.update_fw_version example_collaborators
                          "dev1" "2.0" example_state)) in
  exists s' t,
    @DeviceUpdateManager.get_device example_collaborators "dev1" s
      = (Ok (set_fw_version "2.0" (set_last_log (Some (str "old log")) example_device)),
         s', t).
Proof.
  cbn zeta.
  destruct (@get_device_after_expiry example_collaborators "dev1"
              (elapse 600
                 (state_of (@DeviceUpdateManager.update_fw_version example_collaborators
                              "dev1" "2.0" example_state)))
              (set_last_log (Some (str "old log")) example_device) 600
              (set_fw_version "2.0" (set_last_log (Some (str "old log")) example_device)))
    as (s' & t & E & _).
  - vm_compute. reflexivity.
  - vm_compute. discriminate.
  - vm_compute. reflexivity.
  - exists s', t. exact E.
Defined.

(** ** The last connection, the update mode and the candidate *)

Section connection_properties.
Context `{Collaborators}.

(** X2.  [update_last_connection] returns normally and notifies nobody.  It
    records the time and files the address by its family: for an address
    that contains ":" the row gets [last_seen] and [last_ipv6] and keeps its
    [last_ip], for any other address the row gets [last_seen] and [last_ip]
    and keeps its [last_ipv6]; no other column of the row changes.  The
    cache that [get_device] reads is not written. *)
Theorem update_last_connection_family i seen ip s d s0 t0 :
  DeviceUpdateManager.get_device i s = (Ok d, s0, t0) ->
  let r := DeviceUpdateManager.update_last_connection i seen ip s in
  result_of r = Ok tt /\
  deliveries (events_of r) = [] /\
  cache_main (state_of r) = cache_main s0 /\
  (contains_char ":" ip = true ->
     In (DbSave (set_last_ipv6 (Some ip) (set_last_seen seen d))
           [F_last_seen; F_last_ipv6]) (events_of r) /\
     forall row, db_device s0 !! uuid d = Some row ->
       db_device (state_of r) !! uuid d
       = Some (set_last_seen seen (set_last_ipv6 (Some ip) row))) /\
  (contains_char ":" ip = false ->
     In (DbSave (set_last_ip (Some ip) (set_last_seen seen d))
           [F_last_seen; F_last_ip]) (events_of r) /\
     forall row, db_device s0 !! uuid d = Some row ->
       db_device (state_of r) !! uuid d
       = Some (set_last_seen seen (set_last_ip (Some ip) row))).
Proof.
  intros E. cbn zeta. unfold DeviceUpdateManager.update_last_connection.
  destruct (get_device_run i s) as (d_ & s0_ & t0_ & E_ & _ & _ & Dt).
  rewrite E in E_. injection E_ as <- <- <-.
  destruct (contains_char ":" ip) eqn:Hc.
  - rewrite (read_modify_save_run i
               (fun device => set_last_ipv6 (Some ip) (set_last_seen seen device))
               [F_last_seen; F_last_ipv6] s d s0 t0 E).
    unfold result_of, events_of, state_of; cbn [fst snd].
    split; [reflexivity|].
    split; [now rewrite deliveries_app, Dt|].
    split; [apply cache_main_db_saved|].
    split; [|discriminate]. intros _.
    split; [apply in_or_app; right; right; now left|].
    intros row Hrow.
    now rewrite (saved_row d (set_last_ipv6 (Some ip) (set_last_seen seen d))
                   _ s0 row eq_refl Hrow).
  - rewrite (read_modify_save_run i
               (fun device => set_last_ip (Some ip) (set_last_seen seen device))
               [F_last_seen; F_last_ip] s d s0 t0 E).
    unfold result_of, events_of, state_of; cbn [fst snd].
    split; [reflexivity|].
    split; [now rewrite deliveries_app, Dt|].
    split; [apply cache_main_db_saved|].
    split; [discriminate|]. intros _.
    split; [apply in_or_app; right; right; now left|].
    intros row Hrow.
    now rewrite (saved_row d (set_last_ip (Some ip) (set_last_seen seen d))
                   _ s0 row eq_refl Hrow).
Qed.

(** The candidate by update mode, for a device that is in the cache. *)
Lemma get_firmware_by_mode i s d :
  cache_lookup s i = Some d ->
  DeviceUpdateManager._get_firmware i s = (Ok (candidate_of d (db_device s)), s, []).
Proof.
  intros L. unfold DeviceUpdateManager._get_firmware, candidate_of.
  rewrite (bind_Ok _ _ _ _ _ _ (get_device_hit _ _ _ L)).
  destruct (update_mode d) eqn:Em; try reflexivity.
  rewrite decide_True by reflexivity.
  unfold DeviceUpdateManager.get_rollout.
  unfold bind at 1. rewrite (bind_Ok _ _ _ _ _ _ (get_device_hit _ _ _ L)).
  rewrite Em, decide_True by reflexivity. cbn.
  destruct (Rollout_first _) as [r|]; [destruct (paused r)|]; reflexivity.
Qed.

(** An operation that starts with a read, after that read. *)
Lemma bind_after_read {A B} (m : M A) (k : A -> M B) s a s1 t1 r s2 :
  m s = (Ok a, s1, t1) -> m s1 = (Ok a, s1, []) ->
  bind m k s1 = (r, s2, []) -> bind m k s = (r, s2, t1).
Proof.
  intros E E1 Hk. unfold bind in *. rewrite E. rewrite E1 in Hk.
  destruct (k a s1) as [[r' s2'] t2']. cbn [app] in Hk.
  injection Hk as -> -> ->. now rewrite app_nil_r.
Qed.

(** The candidate by update mode, after any read of the device. *)
Lemma get_firmware_after_read i s d s0 t0 :
  DeviceUpdateManager.get_device i s = (Ok d, s0, t0) ->
  DeviceUpdateManager._get_firmware i s
  = (Ok (candidate_of d (db_device s0)), s0, t0).
Proof.
  intros E.
  destruct (get_device_run i s) as (d_ & s0_ & t0_ & E_ & L0 & _).
  rewrite E in E_. injection E_ as <- <- <-.
  exact (bind_after_read _ _ s d s0 t0 _ _ E (get_device_hit _ _ _ L0)
           (get_firmware_by_mode i s0 d L0)).
Qed.

(** X3.  [update_update mode fw] returns normally, notifies nobody and
    writes the mode and the assigned firmware to the row of the device, and
    to no other column.  The cache that [get_device] reads is not written:
    while its entry stands, the candidate that [_get_firmware] resolves is
    still the one of the device as it was read, and resolving it has no
    effect.  Once the entry has expired the candidate follows the new mode:
    PINNED resolves to nothing, ASSIGNED to exactly [fw], LATEST to the
    latest firmware for the row, and ROLLOUT to the firmware of the row's
    rollout unless there is none or it is paused. *)
Theorem update_update_then_candidate i mode fw s d s0 t0 :
  DeviceUpdateManager.get_device i s = (Ok d, s0, t0) ->
  let r := DeviceUpdateManager.update_update i mode fw s in
  let s' := state_of r in
  result_of r = Ok tt /\
  deliveries (events_of r) = [] /\
  (forall row, db_device s0 !! uuid d = Some row ->
     db_device s' !! uuid d
     = Some (set_assigned_firmware fw (set_update_mode mode row))) /\
  DeviceUpdateManager._get_firmware i s'
  = (Ok (candidate_of d (db_device s')), s', []) /\
  (forall row dt,
     uuid d = i -> db_device s0 !! i = Some row ->
     cache_lookup (elapse dt s') i = None ->
     let row' := set_assigned_firmware fw (set_update_mode mode row) in
     exists s2 t2,
       DeviceUpdateManager._get_firmware i (elapse dt s') =
         (Ok (match mode with
              | PINNED => None
              | ASSIGNED => fw
              | LATEST => Firmware_latest (Some row')
              | ROLLOUT =>
                  match Rollout_first (db_device s' !! uuid row) with
                  | Some ro => if paused ro then None else Some (firmware ro)
                  | None => None
                  end
              end), s2, t2)).
Proof.
  intros E. cbn zeta. unfold DeviceUpdateManager.update_update.
  destruct (get_device_run i s) as (d_ & s0_ & t0_ & E_ & L0 & _ & Dt).
  rewrite E in E_. injection E_ as <- <- <-.
  rewrite (read_modify_save_run i
             (fun device => set_update_mode mode (set_assigned_firmware fw device))
             [F_assigned_firmware; F_update_mode] s d s0 t0 E).
  unfold result_of, events_of, state_of; cbn [fst snd].
  set (d' := set_update_mode mode (set_assigned_firmware fw d)).
  set (s' := db_saved d' _ s0).
  assert (L : cache_lookup s' i = Some d).
  { unfold s'. now rewrite cache_lookup_db_saved. }
  assert (Hrow : forall row, db_device s0 !! uuid d = Some row ->
            db_device s' !! uuid d
            = Some (set_assigned_firmware fw (set_update_mode mode row))).
  { intros row Hr. unfold s'.
    now rewrite (saved_row d d' _ s0 row eq_refl Hr). }
  split; [reflexivity|].
  split; [now rewrite deliveries_app, Dt|].
  split; [exact Hrow|].
  split; [exact (get_firmware_by_mode i s' d L)|].
  intros row dt Hu Hr Lmiss.
  rewrite <- Hu in Hr. apply Hrow in Hr. rewrite Hu in Hr.
  destruct (get_device_miss_row i (elapse dt s') _ Lmiss Hr)
    as (s2 & t2 & E2 & _ & Hdb2 & _).
  exists s2, t2. rewrite (get_firmware_after_read i _ _ s2 t2 E2).
  unfold candidate_of. rewrite Hdb2. now destruct mode.
Qed.

(** X4.  Without a candidate the answer is SKIP whatever [force_update] and
    [log_complete] say: a pinned device, a device in rollout mode whose
    rollout is missing or paused, and an assigned device without firmware
    get [(SKIP, None)], the idle cadence, no delivery, and keep their log. *)
Theorem get_update_without_candidate i s d s0 t0 :
  DeviceUpdateManager.get_device i s = (Ok d, s0, t0) ->
  update_mode d = PINNED \/
  (update_mode d = ASSIGNED /\ assigned_firmware d = None) \/
  (update_mode d = ROLLOUT /\
   match Rollout_first (db_device s0 !! uuid d) with
   | Some ro => paused ro = true
   | None => True
   end) ->
  exists s' t,
    DeviceUpdateManager.get_update i s = (Ok (SKIP, None), s', t) /\
    poll_time_of s' i = POLL_TIME /\
    cache_lookup s' i = Some d /\
    deliveries t = [].
Proof.
  intros E Hmode.
  destruct (get_device_run i s) as (d_ & s0_ & t0_ & E_ & L0 & _).
  rewrite E in E_. injection E_ as <- <- <-.
  assert (Ef : DeviceUpdateManager._get_firmware i s0 = (Ok None, s0, [])).
  { rewrite (get_firmware_by_mode i s0 d L0). unfold candidate_of.
    destruct Hmode as [-> | [[-> ->] | [-> Hr]]]; try reflexivity.
    destruct (Rollout_first _) as [ro|]; [now rewrite Hr | reflexivity]. }
  destruct (get_update_run i s d s0 t0 None s0 [] E Ef)
    as (h & s' & t & Eq & _ & _ & Hnone & _ & _ & _ & _ & Hpoll & _ & _ & Hquiet & Hkeep).
  rewrite (Hnone eq_refl) in *.
  exists s', t. split; [exact Eq|]. split; [now apply Hpoll|].
  split; [exact Hkeep|]. apply Hquiet. now left.
Qed.
End connection_properties.

Lemma update_last_connection_family_witness :
  let r := @DeviceUpdateManager.update_last_connection example_collaborators
             "dev1" 1700000000 "fe80::1" example_state in
  result_of r = Ok tt /\
  (last_ipv6 <$> db_device (state_of r) !! "dev1") = Some (Some "fe80::1") /\
  (last_ip <$> db_device (state_of r) !! "dev1") = Some None.
Proof.
  pose (r := @DeviceUpdateManager.get_device example_collaborators "dev1" example_state).
  assert (E : r = (Ok (set_last_log (Some (str "old log")) example_device),
                   state_of r, events_of r)) by (vm_compute; reflexivity).
  destruct (@update_last_connection_family example_collaborators "dev1" 1700000000
              "fe80::1" example_state _ _ _ E)
    as (Hok & _ & _ & Hv6 & _).
  destruct (Hv6 eq_refl) as (_ & Hrow).
  cbn zeta. split; [exact Hok|].
  change (uuid (set_last_log (Some (str "old log")) example_device)) with "dev1" in Hrow.
  rewrite (Hrow (set_last_log (Some (str "old log")) example_device));
    [split; reflexivity | vm_compute; reflexivity].
Defined.

Lemma update_update_then_candidate_witness :
  let r := @DeviceUpdateManager.update_update example_collaborators "dev1"
             ASSIGNED (Some fw_2_0) example_state in
  (update_mode <$> db_device (state_of r) !! "dev1") = Some ASSIGNED /\
  @DeviceUpdateManager._get_firmware example_collaborators "dev1" (state_of r)
  = (Ok (@Firmware_latest example_collaborators
           (Some (set_last_log (Some (str "old log")) example_device))),
     state_of r, []).
Proof.
  pose (r := @DeviceUpdateManager.get_device example_collaborators "dev1" example_state).
  assert (E : r = (Ok (set_last_log (Some (str "old log")) example_device),
                   state_of r, events_of r)) by (vm_compute; reflexivity).
  destruct (@update_update_then_candidate example_collaborators "dev1"
              ASSIGNED (Some fw_2_0) example_state _ _ _ E)
    as (_ & _ & Hrow & Hcand & _).
  cbn zeta. split; [|exact Hcand].
  change (uuid (set_last_log (Some (str "old log")) example_device)) with "dev1" in Hrow.
  rewrite (Hrow (set_last_log (Some (str "old log")) example_device));
    [reflexivity | vm_compute; reflexivity].
Defined.

(** The example device put into mode ASSIGNED with firmware 2.0: the
    candidate is still the latest firmware of mode LATEST while the entry
    of the cache stands, and the assigned firmware after it has expired;
    put into mode PINNED, the candidate stays until then as well. *)
Example update_update_candidate_example :
  let s1 := state_of (@DeviceUpdateManager.update_update example_collaborators "dev1"
                        PINNED None example_state) in
  result_of (@DeviceUpdateManager._get_firmware example_collaborators "dev1" s1)
    = Ok (Some fw_2_0) /\
  result_of (@DeviceUpdateManager._get_firmware example_collaborators "dev1"
               (elapse 600 s1))
    = Ok None.
Proof. vm_compute. repeat split. Qed.

Lemma get_update_without_candidate_witness :
  exists s' t,
    @DeviceUpdateManager.get_update example_collaborators "dev1" pinned_state
      = (Ok (SKIP, None), s', t) /\
    deliveries t = [].
Proof.
  pose (r := @DeviceUpdateManager.get_device example_collaborators "dev1" pinned_state).
  assert (E : r = (Ok pinned_device, state_of r, events_of r))
    by (vm_compute; reflexivity).
  destruct (@get_update_without_candidate example_collaborators "dev1" pinned_state
              _ _ _ E (or_introl eq_refl))
    as (s' & t & Eq & _ & _ & Hd).
  exists s', t. split; [exact Eq | exact Hd].
Defined.

(** ** Registration data *)

Section config_properties.
Context `{Collaborators}.

Lemma Hardware_get_or_create_run model revision s :
  let hw := mkHardware model revision in
  exists s1 t1,
    Hardware_get_or_create model revision s = (Ok hw, s1, t1) /\
    In hw (db_hardware s1) /\
    (forall h, In h (db_hardware s) -> In h (db_hardware s1)) /\
    deliveries t1 = [] /\
    (forall j, cache_lookup s1 j = cache_lookup s j) /\
    (In hw (db_hardware s) -> s1 = s /\ t1 = []).
Proof.
  cbn zeta. unfold Hardware_get_or_create, bind, get_state, modify, emit, ret. cbn.
  destruct (decide (_ ∈ db_hardware s)) as [Hin|Hnin].
  - apply list_elem_of_In in Hin. exists s, []. now repeat split.
  - do 2 eexists. split; [reflexivity|]. cbn.
    split; [apply in_or_app; right; now left|].
    split; [intros h Hh; apply in_or_app; now left|].
    split; [reflexivity|]. split; [reflexivity|].
    intros Hin. apply list_elem_of_In in Hin. contradiction.
Qed.

Lemma get_device_hardware_grows i s :
  exists d s' t,
    DeviceUpdateManager.get_device i s = (Ok d, s', t) /\
    cache_lookup s' i = Some d /\
    (forall h, In h (db_hardware s) -> In h (db_hardware s')) /\
    deliveries t = [].
Proof.
  destruct (cache_lookup s i) as [d|] eqn:L.
  - exists d, s, []. rewrite (get_device_hit _ _ _ L). now repeat split.
  - destruct (get_device_uncached_frame i s)
      as (d & s1 & t1 & E & _ & _ & _ & _ & _ & Hg & Dt & _).
    exists d, (cache_stored i d 600 s1), (t1 ++ [CacheSet i d 600])%list.
    split.
    { unfold DeviceUpdateManager.get_device, bind at 1, get_state. rewrite L.
      unfold bind at 1. rewrite E. reflexivity. }
    split; [apply cache_lookup_stored|]. split; [exact Hg|].
    now rewrite deliveries_app, Dt.
Qed.

Lemma db_hardware_db_saved d fs s : db_hardware (db_saved d fs s) = db_hardware s.
Proof. unfold db_saved. now destruct (db_device s !! uuid d). Qed.

Lemma resave_config d s :
  db_saved d [F_hardware; F_last_state] (db_saved d [F_hardware; F_last_state] s)
  = db_saved d [F_hardware; F_last_state] s.
Proof.
  destruct s as [subs pt hd c n db hw cnt].
  unfold db_saved; cbn.
  destruct (db !! uuid d) as [row|] eqn:L; cbn.
  - rewrite lookup_insert_eq. unfold with_db_device; cbn.
    rewrite insert_insert_eq. reflexivity.
  - now rewrite L.
Qed.

Lemma db_saved_config_row d s row :
  db_device (db_saved d [F_hardware; F_last_state] s) !! uuid d = Some row ->
  hardware row = hardware d /\ last_state row = last_state d.
Proof.
  unfold db_saved. destruct (db_device s !! uuid d) as [row0|] eqn:L; cbn.
  - rewrite lookup_insert_eq. intros [= <-]. now split.
  - rewrite L. discriminate.
Qed.

(** X7.  [update_config_data] returns normally and notifies nobody, and the
    hardware class named by the arguments ("default" for a missing or empty
    part) is in the hardware table afterwards.  When the device it reads has
    another class or is in state UNKNOWN, it saves that device with the
    class of the arguments and with REGISTERED in place of UNKNOWN (any
    other state is kept), and the row of the device then has that class and
    a state that is not UNKNOWN.  The cache that [get_device] reads is not
    written: it holds the device as it was read, so a second call with the
    same arguments takes the same decision again and leaves the state as
    the first call left it. *)
Theorem update_config_data_registers i hw_model hw_revision s :
  let hw := mkHardware (DeviceUpdateManager.or_default hw_model)
              (DeviceUpdateManager.or_default hw_revision) in
  let r := DeviceUpdateManager.update_config_data i hw_model hw_revision s in
  exists d,
    result_of r = Ok tt /\
    deliveries (events_of r) = [] /\
    In hw (db_hardware (state_of r)) /\
    cache_lookup (state_of r) i = Some d /\
    (forall d0, cache_lookup s i = Some d0 -> d = d0) /\
    (hardware d <> hw \/ last_state d = UNKNOWN ->
       let d' := set_last_state
                   (if decide (last_state d = UNKNOWN) then REGISTERED else last_state d)
                   (set_hardware hw d) in
       In (DbSave d' [F_hardware; F_last_state]) (events_of r) /\
       forall row, db_device (state_of r) !! uuid d = Some row ->
         hardware row = hw /\ last_state row = last_state d' /\
         last_state row <> UNKNOWN) /\
    (let r2 := DeviceUpdateManager.update_config_data i hw_model hw_revision (state_of r) in
     result_of r2 = Ok tt /\ state_of r2 = state_of r).
Proof.
  cbn zeta.
  set (hw := mkHardware (DeviceUpdateManager.or_default hw_model)
               (DeviceUpdateManager.or_default hw_revision)).
  destruct (Hardware_get_or_create_run
              (DeviceUpdateManager.or_default hw_model)
              (DeviceUpdateManager.or_default hw_revision) s)
    as (s1 & t1 & E1 & Hin1 & _ & D1 & Hc1 & _). fold hw in E1, Hin1.
  destruct (get_device_hardware_grows i s1) as (d & s2 & t2 & E2 & L2 & Hg2 & D2).
  assert (Hread : forall d0, cache_lookup s i = Some d0 -> d = d0).
  { intros d0 L0. rewrite <- Hc1 in L0.
    rewrite (get_device_hit _ _ _ L0) in E2. now injection E2 as ->. }
  set (d' := set_last_state
               (if decide (last_state d = UNKNOWN) then REGISTERED else last_state d)
               (set_hardware hw d)).
  assert (Hs' : last_state d' <> UNKNOWN).
  { unfold d'. cbn. now destruct (decide (last_state d = UNKNOWN)). }
  (* the part of the body after the two reads, from any state *)
  set (tail_of := fun (s0 : State) =>
         if decide (hardware d <> hw \/ last_state d = UNKNOWN)
         then (db_saved d' [F_hardware; F_last_state] s0,
               [FreshCacheSet i d' 600; DbSave d' [F_hardware; F_last_state]])
         else (s0, [])).
  assert (Hbody : forall s0 sa ta sb tb,
            Hardware_get_or_create (DeviceUpdateManager.or_default hw_model)
              (DeviceUpdateManager.or_default hw_revision) s0 = (Ok hw, sa, ta) ->
            DeviceUpdateManager.get_device i sa = (Ok d, sb, tb) ->
            DeviceUpdateManager.update_config_data i hw_model hw_revision s0
            = (Ok tt, fst (tail_of sb), (ta ++ tb ++ snd (tail_of sb))%list)).
  { intros s0 sa ta sb tb Ea Eb.
    unfold DeviceUpdateManager.update_config_data.
    rewrite (bind_Ok _ _ _ _ _ _ Ea), (bind_Ok _ _ _ _ _ _ Eb). fold hw.
    unfold tail_of.
    destruct (decide (hardware d <> hw)) as [Hne|Heq];
      destruct (decide (last_state d = UNKNOWN)) as [Hu|Hnu];
      cbn [last_state set_hardware];
      rewrite ?(decide_True (P := last_state d = UNKNOWN)) by assumption;
      rewrite ?(decide_False (P := last_state d = UNKNOWN)) by assumption;
      try (assert (Hh : hardware d = hw)
             by (destruct (decide (hardware d = hw)); tauto)).
    1-3: rewrite decide_True by tauto; rewrite save_device_run; cbn [fst snd];
         unfold d';
         rewrite ?(decide_True (P := last_state d = UNKNOWN)) by assumption;
         rewrite ?(decide_False (P := last_state d = UNKNOWN)) by assumption;
         try reflexivity.
    - replace (set_hardware hw d) with d by (destruct d; cbn in *; now subst).
      reflexivity.
    - rewrite decide_False by tauto. reflexivity. }
  rewrite (Hbody s s1 t1 s2 t2 E1 E2).
  unfold result_of, events_of, state_of; cbn [fst snd].
  assert (Hc3 : cache_lookup (fst (tail_of s2)) i = Some d).
  { unfold tail_of. destruct (decide (hardware d <> hw \/ last_state d = UNKNOWN)); cbn [fst];
      [now rewrite cache_lookup_db_saved | exact L2]. }
  assert (Hhw3 : db_hardware (fst (tail_of s2)) = db_hardware s2).
  { unfold tail_of. destruct (decide (hardware d <> hw \/ last_state d = UNKNOWN)); cbn [fst];
      [now rewrite db_hardware_db_saved | reflexivity]. }
  assert (Hin3 : In hw (db_hardware (fst (tail_of s2)))).
  { rewrite Hhw3. now apply Hg2. }
  exists d. split; [reflexivity|].
  split.
  { rewrite !deliveries_app, D1, D2. unfold tail_of.
    now destruct (decide (hardware d <> hw \/ last_state d = UNKNOWN)). }
  split; [exact Hin3|]. split; [exact Hc3|]. split; [exact Hread|].
  split.
  { intros Hmod. unfold tail_of.
    destruct (decide (hardware d <> hw \/ last_state d = UNKNOWN)) as [_|Hn];
      [|contradiction]. cbn [fst snd].
    split; [apply in_or_app; right; apply in_or_app; right; right; now left|].
    intros row Hrow. change (uuid d) with (uuid d') in Hrow.
    apply db_saved_config_row in Hrow as [Hh Hl].
    rewrite Hh, Hl. split; [reflexivity|]. split; [reflexivity | exact Hs']. }
  destruct (Hardware_get_or_create_run
              (DeviceUpdateManager.or_default hw_model)
              (DeviceUpdateManager.or_default hw_revision) (fst (tail_of s2)))
    as (s4 & t4 & E4 & _ & _ & _ & _ & Hsame). fold hw in E4, Hsame.
  destruct (Hsame Hin3) as [-> ->].
  rewrite (Hbody _ _ _ _ _ E4 (get_device_hit _ _ _ Hc3)). cbn [fst snd].
  split; [reflexivity|].
  unfold tail_of. destruct (decide (hardware d <> hw \/ last_state d = UNKNOWN)); cbn [fst]; [apply resave_config | reflexivity].
Qed.
End config_properties.

(** The example device, first read and so cached, is given the class "x1"
    revision "b": the row has the class, [get_device] still answers with the
    default class, and a second call saves the same columns again. *)
Example update_config_data_example :
  let r := @DeviceUpdateManager.update_config_data example_collaborators "dev1"
             (Some "x1") (Some "b") example_state in
  let r2 := @DeviceUpdateManager.update_config_data example_collaborators "dev1"
              (Some "x1") (Some "b") (state_of r) in
  result_of r = Ok tt /\
  (hardware <$> db_device (state_of r) !! "dev1") = Some (mkHardware "x1" "b") /\
  (hardware <$> cache_lookup (state_of r) "dev1") = Some hw_default /\
  state_of r2 = state_of r /\
  events_of r2 =
    [FreshCacheSet "dev1"
       (set_hardware (mkHardware "x1" "b")
          (set_last_log (Some (str "old log")) example_device)) 600;
     DbSave (set_hardware (mkHardware "x1" "b")
               (set_last_log (Some (str "old log")) example_device))
       [F_hardware; F_last_state]].
Proof. vm_compute. repeat split. Qed.

(** ** What the operations of one device leave alone *)

Create HintDb keep_db.

Section preservation.
Context `{Collaborators}.
Variable R : State -> State -> Prop.
Variable i : string.
Hypothesis R_refl : forall s, R s s.
Hypothesis R_trans : forall a b c, R a b -> R b c -> R a c.
Hypothesis R_cache : forall d s, R s (cache_stored i d 600 s).
Hypothesis R_db_saved : forall d fs s, R s (db_saved d fs s).
Hypothesis R_db_hardware : forall v s, R s (with_db_hardware v s).
Hypothesis R_hardware_default : forall v s, R s (with_hardware_default v s).
Hypothesis R_db_device : forall v s, R s (with_db_device v s).
Hypothesis R_poll_set :
  forall v s, v <> POLL_TIME -> R s (with_poll_time (<[i:=v]> (device_poll_time s)) s).
Hypothesis R_poll_delete :
  forall s, R s (with_poll_time (delete i (device_poll_time s)) s).

Lemma preserves_ret {A} (a : A) : preserves R (ret a).
Proof. intros s. apply R_refl. Qed.

Lemma preserves_raise {A} e : preserves R (@raise A e).
Proof. intros s. apply R_refl. Qed.

Lemma preserves_get_state : preserves R get_state.
Proof. intros s. apply R_refl. Qed.

Lemma preserves_emit e : preserves R (emit e).
Proof. intros s. apply R_refl. Qed.

Lemma preserves_modify f : (forall s, R s (f s)) -> preserves R (modify f).
Proof. intros Hf s. apply Hf. Qed.

Lemma preserves_bind {A B} (m : M A) (k : A -> M B) :
  preserves R m -> (forall a, preserves R (k a)) -> preserves R (bind m k).
Proof.
  intros Hm Hk s. unfold state_of, bind.
  specialize (Hm s). unfold state_of in Hm.
  destruct (m s) as [[[a|e] s1] t1]; cbn in *; [|exact Hm].
  specialize (Hk a s1). unfold state_of in Hk.
  destruct (k a s1) as [[r s2] t2]; cbn in *. eapply R_trans; eauto.
Qed.

Lemma preserves_for_each {A} (l : list A) (f : A -> M unit) :
  (forall x, preserves R (f x)) -> preserves R (for_each l f).
Proof.
  intros Hf. induction l as [|x l IH]; [apply preserves_ret|].
  cbn [for_each]. apply preserves_bind; [apply Hf | intros _; exact IH].
Qed.

Ltac keep :=
  repeat first
    [ apply preserves_ret | apply preserves_raise | apply preserves_get_state
    | apply preserves_emit
    | apply preserves_for_each; intros ?
    | apply preserves_bind; [|intros ?]
    | apply preserves_modify; intros ?; solve [auto]
    | match goal with
      | |- preserves _ (match ?x with _ => _ end) => destruct x
      end ].

Lemma preserves_set_poll_time v : preserves R (UpdateManager.set_poll_time i v).
Proof.
  unfold UpdateManager.set_poll_time.
  destruct (String.eqb_spec v POLL_TIME) as [->|Hne]; cbn [negb].
  - apply preserves_modify. intros s. destruct (device_poll_time s !! i); auto.
  - apply preserves_modify. intros s. now apply R_poll_set.
Qed.

Lemma preserves_publish_log p : preserves R (UpdateManager.publish_log i p).
Proof. unfold UpdateManager.publish_log, UpdateManager.log_subscribers. keep. Qed.

Lemma preserves_cache_set d : preserves R (cache_set i d 600).
Proof. unfold cache_set. keep. Qed.

Lemma preserves_get_device : preserves R (DeviceUpdateManager.get_device i).
Proof.
  unfold DeviceUpdateManager.get_device, DeviceUpdateManager.get_device_uncached,
    Hardware_get_or_create, Device_get_or_create.
  keep; apply preserves_cache_set.
Qed.

Lemma preserves_save_device d fs : preserves R (DeviceUpdateManager.save_device i d fs).
Proof.
  unfold DeviceUpdateManager.save_device, fresh_cache_set, Device_save. keep.
Qed.

#[local] Hint Resolve preserves_get_device preserves_save_device
  preserves_set_poll_time preserves_publish_log : keep_db.

Ltac keep_op := keep; auto with keep_db.

Lemma preserves_setters :
  (forall v, preserves R (DeviceUpdateManager.update_force_update i v)) /\
  (forall v, preserves R (DeviceUpdateManager.update_fw_version i v)) /\
  (forall v, preserves R (DeviceUpdateManager.update_hardware i v)) /\
  (forall v, preserves R (DeviceUpdateManager.update_device_state i v)) /\
  (forall v, preserves R (DeviceUpdateManager.update_name i v)) /\
  (forall v, preserves R (DeviceUpdateManager.update_log_complete i v)) /\
  (forall seen ip, preserves R (DeviceUpdateManager.update_last_connection i seen ip)) /\
  (forall mode fw, preserves R (DeviceUpdateManager.update_update i mode fw)) /\
  (forall m r, preserves R (DeviceUpdateManager.update_config_data i m r)).
Proof.
  repeat split; intros;
    unfold DeviceUpdateManager.update_force_update, DeviceUpdateManager.update_fw_version,
      DeviceUpdateManager.update_hardware, DeviceUpdateManager.update_device_state,
      DeviceUpdateManager.update_name, DeviceUpdateManager.update_log_complete,
      DeviceUpdateManager.update_last_connection, DeviceUpdateManager.update_update,
      DeviceUpdateManager.update_config_data, Hardware_get_or_create;
    keep_op.
Qed.

Lemma preserves_get_firmware : preserves R (DeviceUpdateManager._get_firmware i).
Proof.
  unfold DeviceUpdateManager._get_firmware, DeviceUpdateManager.get_rollout. keep_op.
Qed.

Lemma preserves_clear_log : preserves R (DeviceUpdateManager.clear_log i).
Proof. unfold DeviceUpdateManager.clear_log. keep_op. Qed.

Lemma preserves_get_update : preserves R (DeviceUpdateManager.get_update i).
Proof.
  unfold DeviceUpdateManager.get_update.
  apply preserves_bind; [apply preserves_get_device | intros device].
  apply preserves_bind; [apply preserves_get_firmware | intros fw].
  apply preserves_bind; [|intros ?; apply preserves_ret].
  destruct fw as [fw|]; [|keep_op].
  destruct (_ && _); [keep_op|]. destruct (_ && _); [keep_op|].
  apply preserves_bind; [apply preserves_set_poll_time | intros _].
  apply preserves_bind; [|intros _; apply preserves_ret].
  destruct (log_complete device); [|apply preserves_ret].
  apply preserves_bind; [apply preserves_setters | intros _; apply preserves_clear_log].
Qed.

Lemma preserves_update_log line : preserves R (DeviceUpdateManager.update_log i line).
Proof. unfold DeviceUpdateManager.update_log. keep_op. Qed.

Lemma preserves_get_rollout : preserves R (DeviceUpdateManager.get_rollout i).
Proof. unfold DeviceUpdateManager.get_rollout. keep_op. Qed.

Lemma device_operations_keep_intro : device_operations_keep R i.
Proof.
  unfold device_operations_keep.
  destruct preserves_setters as (S1 & S2 & S3 & S4 & S5 & S6 & S7 & S8 & S9).
  split; [apply preserves_get_device|].
  split; [apply preserves_save_device|].
  do 9 (split; [assumption|]).
  split; [apply preserves_get_rollout|].
  split; [apply preserves_get_firmware|].
  split; [apply preserves_get_update|].
  split; [apply preserves_update_log | apply preserves_clear_log].
Qed.
End preservation.

Section isolation_properties.
Context `{Collaborators}.

(** X8.  The operations of the registered-device policy of one device
    (reads, saves, every setter, the candidate, the decision, the log
    operations) never touch the subscriber table, the clock, or the cadence
    and cache entries of any other device. *)
Theorem operations_leave_others_alone i :
  device_operations_keep (others_kept i) i.
Proof.
  apply device_operations_keep_intro.
  - intros s. now repeat split.
  - intros a b c (S1 & N1 & O1) (S2 & N2 & O2).
    split; [congruence|]. split; [congruence|]. intros j Hj.
    destruct (O1 j Hj) as [P1 C1], (O2 j Hj) as [P2 C2]. split; congruence.
  - intros d s. split; [reflexivity|]. split; [reflexivity|]. intros j Hj.
    split; [reflexivity|]. unfold cache_stored; cbn. now rewrite lookup_insert_ne.
  - intros d fs s. unfold db_saved. destruct (db_device s !! uuid d); now repeat split.
  - intros v s. now repeat split.
  - intros v s. now repeat split.
  - intros v s. now repeat split.
  - intros v s _. split; [reflexivity|]. split; [reflexivity|]. intros j Hj.
    split; [|reflexivity]. cbn. now rewrite lookup_insert_ne.
  - intros s. split; [reflexivity|]. split; [reflexivity|]. intros j Hj.
    split; [|reflexivity]. cbn. now rewrite lookup_delete_ne.
Qed.

(** X9.  The cadence table never holds the idle default: if no entry equals
    [POLL_TIME] before an operation of the registered-device policy, none
    does after it.  [set_poll_time] keeps this as well, for any value. *)
Theorem poll_table_never_holds_default i :
  let R := fun s s' => poll_table_ok s -> poll_table_ok s' in
  device_operations_keep R i /\
  (forall v, preserves R (UpdateManager.set_poll_time i v)) /\
  poll_table_ok empty_state.
Proof.
  cbn zeta.
  assert (Hset : forall v s, v <> POLL_TIME -> poll_table_ok s ->
            poll_table_ok (with_poll_time (<[i:=v]> (device_poll_time s)) s)).
  { intros v s Hv Hok j w. cbn. destruct (decide (i = j)) as [->|Hne].
    - rewrite lookup_insert_eq. now intros [= <-].
    - rewrite lookup_insert_ne by assumption. apply Hok. }
  assert (Hdel : forall s, poll_table_ok s ->
            poll_table_ok (with_poll_time (delete i (device_poll_time s)) s)).
  { intros s Hok j w. cbn. destruct (decide (i = j)) as [->|Hne].
    - now rewrite lookup_delete_eq.
    - rewrite lookup_delete_ne by assumption. apply Hok. }
  split; [|split].
  - apply device_operations_keep_intro; auto.
    + intros d fs s. unfold db_saved. now destruct (db_device s !! uuid d).
  - intros v. apply preserves_set_poll_time; auto.
  - intros j v. cbn. now rewrite lookup_empty.
Qed.
End isolation_properties.

(** ** The cadence table and the interval in seconds *)

Section cadence_properties.
Context `{Collaborators}.

(** X10.  Writing an interval and reading it back: after
    [poll_time = v] the device reads [v], whatever [v] is; the table holds
    an entry for the device exactly when [v] is not the idle default; the
    entries of all other devices are as before; and nothing else happens. *)
Theorem set_poll_time_round_trip i v s :
  let r := UpdateManager.set_poll_time i v s in
  result_of r = Ok tt /\ events_of r = [] /\
  UpdateManager.poll_time i (state_of r) = (Ok v, state_of r, []) /\
  device_poll_time (state_of r) !! i = (if String.eqb v POLL_TIME then None else Some v) /\
  (forall j, j <> i ->
     device_poll_time (state_of r) !! j = device_poll_time s !! j) /\
  device_log_subscriptions (state_of r) = device_log_subscriptions s /\
  cache_main (state_of r) = cache_main s /\ db_device (state_of r) = db_device s.
Proof.
  cbn zeta. unfold UpdateManager.set_poll_time, UpdateManager.poll_time.
  unfold bind, get_state, ret, modify, result_of, events_of, state_of.
  destruct (String.eqb_spec v POLL_TIME) as [->|Hne]; cbn.
  - destruct (device_poll_time s !! i) eqn:L; cbn.
    + rewrite lookup_delete_eq. cbn. repeat split; try reflexivity.
      intros j Hj. now rewrite lookup_delete_ne.
    + rewrite L. cbn. now repeat split.
  - rewrite lookup_insert_eq. cbn. repeat split; try reflexivity.
    intros j Hj. now rewrite lookup_insert_ne.
Qed.

Lemma strptime_field_range limit t v :
  strptime_field limit t = Some v -> (v <= limit)%N.
Proof.
  unfold strptime_field.
  destruct (_ && _ && (int_of_digits t <=? limit)%N) eqn:E; [|discriminate].
  intros [= <-]. apply andb_prop in E as [_ E]. now apply N.leb_le.
Qed.

Lemma strptime_HMS_range s h m sec :
  strptime_HMS s = Some (h, m, sec) -> (h <= 23 /\ m <= 59 /\ sec <= 59)%N.
Proof.
  unfold strptime_HMS.
  destruct (split_on ":" s) as [|a [|b [|c [|? ?]]]]; try discriminate.
  destruct (strptime_field 23 a) as [x|] eqn:Ea; [|discriminate].
  destruct (strptime_field 59 b) as [y|] eqn:Eb; [|discriminate].
  destruct (strptime_field 59 c) as [z|] eqn:Ec; [|discriminate].
  intros [= <- <- <-].
  split; [exact (strptime_field_range _ _ _ Ea)|].
  split; [exact (strptime_field_range _ _ _ Eb) | exact (strptime_field_range _ _ _ Ec)].
Qed.

(** X11.  [poll_seconds] either returns a number of seconds below one day
    (86400) or raises [ValueError], which it does exactly when the interval
    string is not three fields that [strptime] accepts; in both cases the
    state is untouched and there is no effect. *)
Theorem poll_seconds_bounded i s :
  (exists n,
     UpdateManager.poll_seconds i s = (Ok n, s, []) /\ (n < 86400)%N /\
     exists h m sec,
       strptime_HMS (poll_time_of s i) = Some (h, m, sec) /\
       n = (h * 3600 + m * 60 + sec)%N) \/
  (UpdateManager.poll_seconds i s = (Raise ValueError, s, []) /\
   strptime_HMS (poll_time_of s i) = None).
Proof.
  unfold UpdateManager.poll_seconds, UpdateManager.poll_time.
  unfold bind, get_state, ret, raise. cbn. fold (poll_time_of s i).
  destruct (strptime_HMS (poll_time_of s i)) as [[[h m] sec]|] eqn:E.
  - left. destruct (strptime_HMS_range _ _ _ _ E) as (Hh & Hm & Hs).
    eexists. split; [reflexivity|]. split; [lia|]. now exists h, m, sec.
  - right. now split.
Qed.
End cadence_properties.

(** ** What [findall] reports *)

Section findall_properties.
Context `{Collaborators}.

Lemma all_matches_sound s m :
  In m (all_matches s) ->
  m <> [] /\ forallb is_Nd m = true /\
  exists pre post, s = (pre ++ str "Downloaded " ++ m ++ str "%" ++ post)%list.
Proof.
  induction s as [|c s IH]; [contradiction|]. cbn [all_matches].
  assert (Hrest : In m (all_matches s) ->
            m <> [] /\ forallb is_Nd m = true /\
            exists pre post,
              c :: s = (pre ++ str "Downloaded " ++ m ++ str "%" ++ post)%list).
  { intros Hin. destruct (IH Hin) as (H1 & H2 & pre & post & ->).
    split; [exact H1|]. split; [exact H2|]. now exists (c :: pre), post. }
  destruct (progress_match_at (c :: s)) as [[ds n]|] eqn:Hm; [|exact Hrest].
  intros [<-|Hin]; [|now apply Hrest].
  destruct (progress_match_at_inv _ _ _ Hm) as (post & Es & H1 & H2 & _).
  split; [exact H1|]. split; [exact H2|]. now exists [], post.
Qed.

(** X12.  Every capture [findall] reports for the progress pattern is a
    non-empty run of decimal digits that stands in the line between
    "Downloaded " and "%". *)
Theorem findall_progress_sound line m :
  In m (findall_progress line) ->
  m <> [] /\ forallb is_Nd m = true /\
  exists pre post, line = (pre ++ str "Downloaded " ++ m ++ str "%" ++ post)%list.
Proof. rewrite findall_progress_all_matches. apply all_matches_sound. Qed.

(** X18.  What [update_log] does with the progress of a line.  If the line
    contains "Downloaded <N>%" (N a non-empty run of decimal digits) and no
    such occurrence starts further right, the device it saves has the
    digits N as its progress; if the line contains no occurrence, the device
    it saves has the progress of the device it read.  The columns
    [progress] and [last_log] of that device are what is written to the
    row, and the entry of the cache that [get_device] reads is left as it
    was. *)
Theorem update_log_saves_last_occurrence i line s d s0 t0 :
  DeviceUpdateManager.get_device i s = (Ok d, s0, t0) ->
  exists d' s' t,
    DeviceUpdateManager.update_log i (Some line) s = (Ok tt, s', t) /\
    In (DbSave d' [F_progress; F_last_log]) t /\
    (forall pre ds post,
       line = (pre ++ str "Downloaded " ++ ds ++ str "%" ++ post)%list ->
       ds <> [] -> forallb is_Nd ds = true ->
       (forall pre' ds' post',
          line = (pre' ++ str "Downloaded " ++ ds' ++ str "%" ++ post')%list ->
          ds' <> [] -> forallb is_Nd ds' = true ->
          length pre' <= length pre) ->
       progress d' = PStr ds) /\
    ((forall pre ds post,
        line = (pre ++ str "Downloaded " ++ ds ++ str "%" ++ post)%list ->
        ds <> [] -> forallb is_Nd ds = true -> False) ->
     progress d' = progress d) /\
    (forall row, db_device s' !! uuid d = Some row ->
       progress row = PInt (progress_value (progress d')) /\
       last_log row = last_log d') /\
    cache_lookup s' i = Some d.
Proof.
  intros E.
  destruct (update_log_effects i line s d s0 t0 E) as (s' & t & Eq & Hin & _ & Hrow & Hc).
  exists (device_after_line line d), s', t.
  split; [exact Eq|]. split; [exact Hin|].
  split.
  { intros pre ds post El Hne Hd Hlast. rewrite progress_after_line.
    now rewrite (findall_progress_last line pre ds post El Hne Hd Hlast). }
  split.
  { intros Hno. rewrite progress_after_line.
    now rewrite (findall_progress_none line Hno). }
  split; [|exact Hc].
  intros row Hr. apply Hrow in Hr as [Hl Hp]. split; [exact Hp | exact Hl].
Qed.
End findall_properties.

Lemma findall_progress_sound_witness :
  In (str "57")
    (@findall_progress example_collaborators (str "Downloaded 42% Downloaded 57%")) /\
  exists pre post,
    str "Downloaded 42% Downloaded 57%"
    = (pre ++ str "Downloaded " ++ str "57" ++ str "%" ++ post)%list.
Proof.
  assert (Hin : In (str "57")
                  (@findall_progress example_collaborators
                     (str "Downloaded 42% Downloaded 57%")))
    by (vm_compute; right; left; reflexivity).
  split; [exact Hin|].
  exact (proj2 (proj2 (@findall_progress_sound example_collaborators _ _ Hin))).
Defined.

Lemma update_log_saves_last_occurrence_witness :
  exists d' s' t,
    @DeviceUpdateManager.update_log example_collaborators "dev1"
      (Some (str "Downloaded 42% Downloaded 57%")) example_state = (Ok tt, s', t) /\
    In (DbSave d' [F_progress; F_last_log]) t /\
    progress d' = PStr (str "57").
Proof.
  pose (r := @DeviceUpdateManager.get_device example_collaborators "dev1" example_state).
  assert (E : r = (Ok (set_last_log (Some (str "old log")) example_device),
                   state_of r, events_of r)) by (vm_compute; reflexivity).
  destruct (@update_log_saves_last_occurrence example_collaborators "dev1"
              (str "Downloaded 42% Downloaded 57%") example_state _ _ _ E)
    as (d' & s' & t & Eq & Hin & _).
  exists d', s', t. split; [exact Eq|]. split; [exact Hin|].
  assert (Et : t = events_of
                     (@DeviceUpdateManager.update_log example_collaborators "dev1"
                        (Some (str "Downloaded 42% Downloaded 57%")) example_state))
    by (rewrite Eq; reflexivity).
  rewrite Et in Hin. vm_compute in Hin.
  repeat (destruct Hin as [Hin|Hin]; try discriminate Hin); [|contradiction].
  injection Hin as <-. reflexivity.
Defined.

(** A line with digits that are not ASCII: "Downloaded " followed by the
    Arabic-Indic digits four and two and "%" is an occurrence, and the row
    receives 42. *)
Example update_log_unicode_digits :
  let line := (str "Downloaded " ++ [1636; 1634]%N ++ str "%")%list in
  let r := @DeviceUpdateManager.update_log example_collaborators "dev1" (Some line)
             example_state in
  @findall_progress example_collaborators line = [[1636; 1634]%N] /\
  progress <$> db_device (state_of r) !! "dev1" = Some (PInt 42).
Proof. vm_compute. repeat split. Qed.

(** ** Ordinary log lines *)

Section append_properties.
Context `{Collaborators}.

Lemma device_after_plain_line line d :
  startswith (str "Installing Update Chunk Artifacts.") line = false ->
  line <> str "Skipped Update." ->
  last_log (device_after_line line d)
  = Some (log_text d ++ (line ++ [10%N]))%list.
Proof.
  intros Hm Hs. unfold device_after_line, log_text.
  rewrite Hm, (bool_decide_eq_false_2 _ Hs).
  destruct (last_log d) eqn:El, (last (findall_progress line)); cbn; now rewrite ?El.
Qed.

(** X13.  A line that neither begins with the reset marker nor is
    "Skipped Update." is sent, with a newline, to every subscriber once,
    and the device is saved with the text it was read with, the line and a
    newline as its log; that is the log of the row afterwards.  The entry
    of the cache that [get_device] reads is not written, so a second such
    line is appended to the same text as the first: after two lines in a
    row the row holds the text the device was read with followed by the
    second line only. *)
Theorem update_log_appends i l1 l2 s d s0 t0 :
  DeviceUpdateManager.get_device i s = (Ok d, s0, t0) ->
  startswith (str "Installing Update Chunk Artifacts.") l1 = false ->
  l1 <> str "Skipped Update." ->
  startswith (str "Installing Update Chunk Artifacts.") l2 = false ->
  l2 <> str "Skipped Update." ->
  let nl := [10%N] in
  let r1 := DeviceUpdateManager.update_log i (Some l1) s in
  let r2 := DeviceUpdateManager.update_log i (Some l2) (state_of r1) in
  result_of r1 = Ok tt /\ result_of r2 = Ok tt /\
  deliveries (events_of r1) = broadcast (subscribers_of s i) (Some (l1 ++ nl)%list) /\
  deliveries (events_of r2) = broadcast (subscribers_of s i) (Some (l2 ++ nl)%list) /\
  (forall row, db_device (state_of r1) !! uuid d = Some row ->
     last_log row = Some (log_text d ++ (l1 ++ nl))%list) /\
  (forall row, db_device (state_of r2) !! uuid d = Some row ->
     last_log row = Some (log_text d ++ (l2 ++ nl))%list) /\
  cache_lookup (state_of r1) i = Some d /\
  cache_lookup (state_of r2) i = Some d.
Proof.
  intros E M1 S1 M2 S2. cbn zeta.
  destruct (get_device_run i s) as (d_ & s0_ & t0_ & E_ & L0 & (F1 & _) & Dt).
  rewrite E in E_. injection E_ as <- <- <-.
  assert (Hsub : subscribers_of s0 i = subscribers_of s i)
    by (unfold subscribers_of; now rewrite F1).
  rewrite (update_log_run i l1 s d s0 t0 E).
  rewrite M1, (bool_decide_eq_false_2 _ S1).
  unfold result_of, events_of, state_of; cbn [fst snd].
  set (d1 := device_after_line l1 d).
  set (s1 := db_saved d1 _ s0).
  assert (L1 : cache_lookup s1 i = Some d).
  { unfold s1. now rewrite cache_lookup_db_saved. }
  assert (Hsub1 : subscribers_of s1 i = subscribers_of s i).
  { unfold s1. rewrite subscribers_of_db_saved. exact Hsub. }
  rewrite (update_log_run i l2 s1 d s1 [] (get_device_hit _ _ _ L1)).
  rewrite M2, (bool_decide_eq_false_2 _ S2).
  cbn [fst snd].
  split; [reflexivity|]. split; [reflexivity|].
  rewrite Hsub, Hsub1.
  split.
  { rewrite !deliveries_app, Dt, deliveries_broadcast. cbn. now rewrite app_nil_r. }
  split.
  { cbn [app]. rewrite !deliveries_app, deliveries_broadcast. cbn. now rewrite app_nil_r. }
  split.
  { intros row Hr. unfold s1 in Hr.
    rewrite <- (device_after_line_uuid l1 d) in Hr. fold d1 in Hr.
    apply db_saved_log_row in Hr as [-> _].
    now apply device_after_plain_line. }
  split.
  { intros row Hr.
    rewrite <- (device_after_line_uuid l2 d) in Hr.
    apply db_saved_log_row in Hr as [-> _].
    now apply device_after_plain_line. }
  split; [exact L1|]. now rewrite cache_lookup_db_saved.
Qed.
End append_properties.

Lemma update_log_appends_witness :
  let r1 := @DeviceUpdateManager.update_log example_collaborators "dev1"
              (Some (str "first")) example_state in
  let r2 := @DeviceUpdateManager.update_log example_collaborators "dev1"
              (Some (str "second")) (state_of r1) in
  (last_log <$> db_device (state_of r1) !! "dev1")
  = Some (Some (str "old log" ++ str "first" ++ [10%N])%list) /\
  (last_log <$> db_device (state_of r2) !! "dev1")
  = Some (Some (str "old log" ++ str "second" ++ [10%N])%list).
Proof.
  pose (r := @DeviceUpdateManager.get_device example_collaborators "dev1" example_state).
  assert (E : r = (Ok (set_last_log (Some (str "old log")) example_device),
                   state_of r, events_of r)) by (vm_compute; reflexivity).
  destruct (@update_log_appends example_collaborators "dev1" (str "first") (str "second")
              example_state _ _ _ E)
    as (_ & _ & _ & _ & H1 & H2 & _); try reflexivity; try discriminate.
  cbn zeta.
  change (uuid (set_last_log (Some (str "old log")) example_device)) with "dev1" in H1, H2.
  split.
  - destruct (db_device (state_of (@DeviceUpdateManager.update_log example_collaborators
                "dev1" (Some (str "first")) example_state)) !! "dev1") as [row|] eqn:L;
      [|vm_compute in L; discriminate].
    cbn. now rewrite (H1 row eq_refl).
  - destruct (db_device (state_of (@DeviceUpdateManager.update_log example_collaborators
                "dev1" (Some (str "second"))
                (state_of (@DeviceUpdateManager.update_log example_collaborators
                   "dev1" (Some (str "first")) example_state)))) !! "dev1") as [row|] eqn:L;
      [|vm_compute in L; discriminate].
    cbn. now rewrite (H2 row eq_refl).
Defined.

(** ** A subscription around a broadcast *)

Section scope_properties.
Context `{Collaborators}.

(** X14.  A callback that subscribes to a registered device receives the
    buffered log first, then every broadcast made inside its scope, after
    the callbacks registered before it; when the scope has ended the
    subscriber list is what it was, and a broadcast no longer reaches the
    callback. *)
Theorem subscriber_receives_in_scope i cb p s d s0 t0 :
  DeviceUpdateManager.get_device i s = (Ok d, s0, t0) ->
  ~ In cb (subscribers_of s i) ->
  let r := subscribe_log (Registered i) cb (UpdateManager.publish_log i p) s in
  result_of r = Ok (Some tt) /\
  deliveries (events_of r)
  = (Deliver cb (last_log d) :: broadcast (subscribers_of s i) p ++ [Deliver cb p])%list /\
  subscribers_of (state_of r) i = subscribers_of s i /\
  events_of (UpdateManager.publish_log i p (state_of r))
  = broadcast (subscribers_of s i) p.
Proof.
  intros E Hfresh. cbn zeta.
  destruct (get_device_run i s) as (d_ & s0_ & t0_ & E_ & _ & _ & Dt).
  rewrite E in E_. injection E_ as <- <- <-.
  destruct (subscribe_log_enter_registered i cb s d s0 t0 E) as (s1 & Een & Hs1 & _).
  destruct (subscribe_log_registered i cb (UpdateManager.publish_log i p) s d s0 t0 E)
    as (s1' & Een' & Hexit).
  rewrite Een in Een'. injection Een' as <-.
  destruct (Hexit (Ok tt) s1 (broadcast (subscribers_of s1 i) p) (publish_log_run i p s1))
    as (rest & s3 & Hrm & Erun & Hs3).
  { rewrite Hs1. apply in_or_app. right. now left. }
  rewrite Hs1, (list_remove_first_snoc_fresh cb _ Hfresh) in Hrm. injection Hrm as <-.
  rewrite Erun. unfold result_of, events_of, state_of; cbn [fst snd].
  split; [reflexivity|].
  split.
  { rewrite Hs1, !deliveries_app, Dt, deliveries_broadcast. cbn.
    unfold broadcast. rewrite map_app. cbn. now rewrite app_nil_r. }
  split; [exact Hs3|].
  rewrite publish_log_run. cbn. now rewrite Hs3.
Qed.

(** X15.  The [finally] block of [subscribe_log]: when the callback is in
    the subscriber list, one registration of it is removed (the list gets
    shorter by one and keeps every other callback) without any effect; when
    it is not, [ValueError] is raised and the state is untouched. *)
Theorem subscribe_log_exit_cases i cb s :
  (In cb (subscribers_of s i) ->
   exists rest s',
     UpdateManager.subscribe_log_exit i cb s = (Ok tt, s', []) /\
     subscribers_of s' i = rest /\
     S (length rest) = length (subscribers_of s i) /\
     (forall x, x <> cb -> (In x rest <-> In x (subscribers_of s i))) /\
     (forall j, j <> i -> subscribers_of s' j = subscribers_of s j)) /\
  (~ In cb (subscribers_of s i) ->
   UpdateManager.subscribe_log_exit i cb s = (Raise ValueError, s, [])).
Proof.
  unfold UpdateManager.subscribe_log_exit, UpdateManager.log_subscribers.
  unfold bind, get_state, ret. cbn. fold (subscribers_of s i). split.
  - intros Hin. destruct (list_remove_first_In cb _ Hin) as (rest & -> & Hlen & Hmem).
    exists rest. eexists. split; [reflexivity|].
    unfold subscribers_of at 1; cbn. rewrite lookup_insert_eq.
    split; [reflexivity|]. split; [exact Hlen|]. split; [exact Hmem|].
    intros j Hj. unfold subscribers_of; cbn. now rewrite lookup_insert_ne.
  - intros Hnin.
    destruct (list_remove_first cb (subscribers_of s i)) as [rest|] eqn:Hr; [|reflexivity].
    exfalso. apply Hnin. clear Hnin. revert rest Hr.
    induction (subscribers_of s i) as [|y l IH]; intros rest Hr; [discriminate|].
    cbn in Hr. destruct (decide (cb = y)) as [->|Hne]; [now left|].
    right. destruct (list_remove_first cb l); [eauto | discriminate].
Qed.
End scope_properties.

Lemma subscriber_receives_in_scope_witness :
  let r := @subscribe_log example_collaborators unit (Registered "dev1") 3%nat
             (UpdateManager.publish_log "dev1" (Some (str "hello"))) example_state in
  deliveries (events_of r)
  = [Deliver 3 (Some (str "old log")); Deliver 7 (Some (str "hello"));
     Deliver 8 (Some (str "hello")); Deliver 3 (Some (str "hello"))] /\
  subscribers_of (state_of r) "dev1" = [7; 8]%nat.
Proof.
  pose (r := @DeviceUpdateManager.get_device example_collaborators "dev1" example_state).
  assert (E : r = (Ok (set_last_log (Some (str "old log")) example_device),
                   state_of r, events_of r)) by (vm_compute; reflexivity).
  assert (Hfresh : ~ In 3%nat (subscribers_of example_state "dev1")).
  { vm_compute. intros [Hc|[Hc|[]]]; discriminate. }
  destruct (@subscriber_receives_in_scope example_collaborators "dev1" 3%nat
              (Some (str "hello")) example_state _ _ _ E Hfresh)
    as (_ & Hd & Hs & _).
  split; [exact Hd | exact Hs].
Defined.

(** ** Deleting devices *)

Section delete_properties.
Context `{Collaborators}.


End delete_properties.

(** The example device is read, and so cached, and then deleted: its row
    is gone and [get_device] still answers with it. *)
Example delete_devices_example :
  let s1 := state_of (@DeviceUpdateManager.get_device example_collaborators "dev1"
                        example_state) in
  let r := @delete_devices example_collaborators ["dev1"] s1 in
  result_of r = Ok tt /\
  events_of r = [FreshCacheDelete "dev1"] /\
  db_device (state_of r) !! "dev1" = None /\
  result_of (@DeviceUpdateManager.get_device example_collaborators "dev1" (state_of r))
  = Ok (set_last_log (Some (str "old log")) example_device).
Proof. vm_compute. repeat split. Qed.

(** ** What the decision and the log operations never change *)

Section log_columns_properties.
Context `{Collaborators}.

Lemma same_but_log_after_line line d : same_but_log d (device_after_line line d).
Proof.
  unfold device_after_line.
  destruct (last_log d), (last (findall_progress line)),
    (startswith (str "Installing Update Chunk Artifacts.") line),
    (bool_decide (line = str "Skipped Update.")); now repeat split.
Qed.

(** The row after a save of log columns only. *)
Lemma db_saved_log_columns d' fs s k row :
  (forall f, In f fs -> f = F_progress \/ f = F_last_log \/ f = F_log_complete) ->
  db_device s !! k = Some row ->
  exists row', db_device (db_saved d' fs s) !! k = Some row' /\ same_but_log row row'.
Proof.
  intros Hfs Hrow. unfold db_saved.
  destruct (db_device s !! uuid d') as [row0|] eqn:L; cbn.
  2:{ exists row. split; [exact Hrow | now repeat split]. }
  destruct (decide (uuid d' = k)) as [Hk|Hk].
  - rewrite Hk in *. rewrite lookup_insert_eq. rewrite Hrow in L. injection L as <-.
    eexists. split; [reflexivity|].
    clear Hrow. induction fs as [|f fs IH]; [now repeat split|].
    cbn [foldr].
    assert (Hrest : same_but_log row (foldr (copy_field d') row fs))
      by (apply IH; intros f0 Hf0; apply Hfs; now right).
    destruct (Hfs f (or_introl eq_refl)) as [->|[->| ->]]; exact Hrest.
  - rewrite lookup_insert_ne by assumption.
    exists row. split; [exact Hrow | now repeat split].
Qed.

(** X17.  The decision and the log operations write nothing but the three
    log columns: after [get_update], [update_log] of a line or [clear_log],
    the row of the device has the identity, hardware, version, state, mode,
    assigned firmware, force flag, connection data and name it had before;
    in particular [get_update] does not reset [force_update].  None of the
    three writes the cache that [get_device] reads, which still holds the
    device as it was read. *)
Theorem log_operations_keep_columns i s d s0 t0 row :
  DeviceUpdateManager.get_device i s = (Ok d, s0, t0) ->
  db_device s0 !! uuid d = Some row ->
  let after_update := state_of (DeviceUpdateManager.get_update i s) in
  let after_line := fun line => state_of (DeviceUpdateManager.update_log i (Some line) s) in
  let after_clear := state_of (DeviceUpdateManager.clear_log i s) in
  (exists row', db_device after_update !! uuid d = Some row' /\ same_but_log row row') /\
  (forall line,
     exists row', db_device (after_line line) !! uuid d = Some row' /\
                  same_but_log row row') /\
  (exists row', db_device after_clear !! uuid d = Some row' /\ same_but_log row row') /\
  cache_lookup after_update i = Some d /\
  (forall line, cache_lookup (after_line line) i = Some d) /\
  cache_lookup after_clear i = Some d.
Proof.
  intros E Hrow. cbn zeta.
  destruct (get_device_run i s) as (d_ & s0_ & t0_ & E_ & L0 & _).
  rewrite E in E_. injection E_ as <- <- <-.
  destruct (get_firmware_run i s0 d L0) as (cand & Ef).
  destruct (get_update_run i s d s0 t0 cand s0 [] E Ef)
    as (h & s' & t & Eq & _ & Hkeep & _ & _ & _ & _ & _ & _ & _ & _ & _ & Hc).
  rewrite Eq. unfold state_of; cbn [fst snd].
  split; [exact (Hkeep row Hrow)|].
  split.
  { intros line. rewrite (update_log_run i line s d s0 t0 E). cbn [fst snd].
    apply db_saved_log_columns; [|exact Hrow].
    intros f [<-|[<-|[]]]; auto. }
  split.
  { rewrite (clear_log_run i s d s0 t0 E). cbn [fst snd].
    apply db_saved_log_columns; [|exact Hrow].
    intros f [<-|[]]; auto. }
  split; [exact Hc|].
  split.
  { intros line. rewrite (update_log_run i line s d s0 t0 E). cbn [fst snd].
    now rewrite cache_lookup_db_saved. }
  rewrite (clear_log_run i s d s0 t0 E). cbn [fst snd].
  now rewrite cache_lookup_db_saved.
Qed.
End log_columns_properties.

Lemma log_operations_keep_columns_witness :
  exists row',
    db_device
      (state_of (@DeviceUpdateManager.get_update example_collaborators "dev1" pinned_state))
      !! "dev1" = Some row' /\
    force_update row' = true /\ update_mode row' = PINNED.
Proof.
  pose (r := @DeviceUpdateManager.get_device example_collaborators "dev1" pinned_state).
  assert (E : r = (Ok pinned_device, state_of r, events_of r))
    by (vm_compute; reflexivity).
  assert (Hrow : db_device (state_of r) !! uuid pinned_device = Some pinned_device)
    by (vm_compute; reflexivity).
  destruct (@log_operations_keep_columns example_collaborators "dev1" pinned_state
              _ _ _ _ E Hrow)
    as ((row' & L & Hsame) & _).
  exists row'. split; [exact L|].
  destruct Hsame as (_ & _ & _ & _ & Hm & _ & Hf & _).
  split; [rewrite Hf | rewrite Hm]; reflexivity.
Defined.
